(** * Department submission forms: OTP-gated submit, payload normalisation, proxy routes

    A shallow embedding of
      - the three form controllers ([JournalSubmissionForm], [ProjectSubmissionForm],
        [ResearchSubmissionForm]): the email-watch effect, [onSubmit], the add/remove
        buttons of the sub-entity rows;
      - [DepartmentSubmissionSection];
      - the proxy routes [POST] of [api/submissions/journal] and [api/submissions/research].

    JavaScript strings are sequences of UTF-16 code units ([list N]); object literals
    and JSON objects are association lists in insertion order; [toast], [fetch] and
    [console.error] append to logs carried in the state, and the answer of the network
    is an argument ([fetch]) of the function that calls it. *)

From Stdlib Require Import List NArith ZArith Bool String Ascii Lia DecimalString.
Import ListNotations.
Open Scope N_scope.
Set Warnings "-register-all".
Set Implicit Arguments.

(* ================================================================== *)
(** ** JavaScript strings *)

Definition jstring := list N.

(** A source literal, code unit by code unit. *)
Definition js (s : string) : jstring :=
  List.map N_of_ascii (list_ascii_of_string s).

Fixpoint str_eqb (a b : jstring) : bool :=
  match a, b with
  | [], [] => true
  | x :: a', y :: b' => (x =? y) && str_eqb a' b'
  | _, _ => false
  end.

(** ECMAScript WhiteSpace and LineTerminator code points: what [trim] strips and
    what [Number] skips around a numeric literal. *)
Definition isWhiteSpace (c : N) : bool :=
  (c =? 9) || (c =? 10) || (c =? 11) || (c =? 12) || (c =? 13) || (c =? 32)
  || (c =? 160) || (c =? 5760) || ((8192 <=? c) && (c <=? 8202))
  || (c =? 8232) || (c =? 8233) || (c =? 8239) || (c =? 8287)
  || (c =? 12288) || (c =? 65279).

Fixpoint trimStart (s : jstring) : jstring :=
  match s with
  | c :: r => if isWhiteSpace c then trimStart r else s
  | [] => []
  end.

Definition trimEnd (s : jstring) : jstring := rev (trimStart (rev s)).

(** [String.prototype.trim]. *)
Definition trim (s : jstring) : jstring := trimEnd (trimStart s).

(** Truthiness of a string: [!s] is [negb (truthy_str s)]. *)
Definition truthy_str (s : jstring) : bool :=
  match s with [] => false | _ :: _ => true end.

(* ================================================================== *)
(** ** JavaScript numbers, as far as [Number(string)], [Number.isNaN] and
       [JSON.stringify] look at them

    A finite number is kept as the decimal it was read from, [(-1)^neg * m * 10^e];
    it stands for the binary64 value nearest to that decimal.  The two roundings
    that change what the code observes are made explicit: a decimal at or above
    [2^1024 - 2^970] is [Infinity], one at or below [2^-1075] is zero. *)

Inductive jsnumber : Type :=
| NaN
| Infinity (neg : bool)
| Finite (neg : bool) (m : N) (e : Z).

Definition isNaN (x : jsnumber) : bool :=
  match x with NaN => true | _ => false end.

Definition pow10 (k : Z) : Z := Z.pow 10 k.

Definition rounds_to_infinity (m : N) (e : Z) : bool :=
  let top := (Z.pow 2 1024 - Z.pow 2 970)%Z in
  if (0 <=? e)%Z then (top <=? Z.of_N m * pow10 e)%Z
  else (top * pow10 (- e) <=? Z.of_N m)%Z.

Definition rounds_to_zero (m : N) (e : Z) : bool :=
  (m =? 0) ||
  (if (0 <=? e)%Z then false
   else (Z.of_N m * Z.pow 2 1075 <=? pow10 (- e))%Z).

Definition round64 (neg : bool) (m : N) (e : Z) : jsnumber :=
  if rounds_to_infinity m e then Infinity neg
  else if rounds_to_zero m e then Finite neg 0 0
  else Finite neg m e.

Definition digit_of (radix : N) (c : N) : option N :=
  let v :=
    if (48 <=? c) && (c <=? 57) then Some (c - 48)
    else if (97 <=? c) && (c <=? 102) then Some (c - 87)
    else if (65 <=? c) && (c <=? 70) then Some (c - 55)
    else None in
  match v with
  | Some d => if d <? radix then Some d else None
  | None => None
  end.

(** Longest prefix of digits in [radix], and what follows it. *)
Fixpoint span_digits (radix : N) (s : jstring) : list N * jstring :=
  match s with
  | c :: r =>
      match digit_of radix c with
      | Some d => let '(ds, rest) := span_digits radix r in (d :: ds, rest)
      | None => ([], s)
      end
  | [] => ([], [])
  end.

Definition digits_value (radix : N) (ds : list N) : N :=
  fold_left (fun acc d => radix * acc + d) ds 0.

(** A whole string of one or more digits in [radix]. *)
Definition all_digits (radix : N) (s : jstring) : option N :=
  match span_digits radix s with
  | (d :: ds, []) => Some (digits_value radix (d :: ds))
  | _ => None
  end.

(** ExponentPart after its [e]/[E]: an optional sign and one or more digits. *)
Definition exponent_part (s : jstring) : option Z :=
  match s with
  | 43 :: r => option_map Z.of_N (all_digits 10 r)
  | 45 :: r => option_map (fun v => (- Z.of_N v)%Z) (all_digits 10 r)
  | _ => option_map Z.of_N (all_digits 10 s)
  end.

(** StrUnsignedDecimalLiteral. *)
Definition unsigned_decimal (neg : bool) (s : jstring) : jsnumber :=
  if str_eqb s (js "Infinity") then Infinity neg
  else
    let '(ip, r1) := span_digits 10 s in
    let '(fp, r2) :=
      match r1 with
      | 46 :: r => span_digits 10 r
      | _ => ([], r1)
      end in
    match ip ++ fp with
    | [] => NaN
    | ds =>
        let m := digits_value 10 ds in
        let scale := (- Z.of_nat (List.length fp))%Z in
        match r2 with
        | [] => round64 neg m scale
        | c :: r3 =>
            if (c =? 101) || (c =? 69) then
              match exponent_part r3 with
              | Some x => round64 neg m (x + scale)
              | None => NaN
              end
            else NaN
        end
    end.

(** [Number(s)] for a string [s] (StringToNumber): surrounding white space is
    skipped, the empty string is [0], [0x]/[0o]/[0b] literals are unsigned, a decimal
    literal may carry a sign, anything else is [NaN]. *)
Definition Number (s : jstring) : jsnumber :=
  match trim s with
  | [] => Finite false 0 0
  | 48 :: 120 :: r | 48 :: 88 :: r =>
      match all_digits 16 r with Some v => round64 false v 0 | None => NaN end
  | 48 :: 111 :: r | 48 :: 79 :: r =>
      match all_digits 8 r with Some v => round64 false v 0 | None => NaN end
  | 48 :: 98 :: r | 48 :: 66 :: r =>
      match all_digits 2 r with Some v => round64 false v 0 | None => NaN end
  | 43 :: r => unsigned_decimal false r
  | 45 :: r => unsigned_decimal true r
  | t => unsigned_decimal false t
  end.

(* ================================================================== *)
(** ** Values of object literals, and JSON *)

(** What the payload literals hold: strings, numbers, [undefined], arrays, objects. *)
Inductive jsval : Type :=
| VUndef
| VStr (s : jstring)
| VNum (x : jsnumber)
| VArr (items : list jsval)
| VObj (fields : list (jstring * jsval)).

(** A JSON document (what [JSON.stringify] writes and [response.json()] reads). *)
Inductive json : Type :=
| JNull
| JBool (b : bool)
| JNum (neg : bool) (m : N) (e : Z)
| JStr (s : jstring)
| JArr (items : list json)
| JObj (fields : list (jstring * json)).

(** [s || undefined]. *)
Definition or_undefined (s : jstring) : jsval :=
  if truthy_str s then VStr s else VUndef.

(** [Number.isNaN(x) ? undefined : x]. *)
Definition nan_to_undefined (x : jsnumber) : jsval :=
  if isNaN x then VUndef else VNum x.

Section Properties.
Variables A B : Type.
Variable f : A -> option B.

(** The properties of an object, those whose value has no JSON text dropped. *)
Fixpoint defined_props (fs : list (jstring * A)) : list (jstring * B) :=
  match fs with
  | [] => []
  | (k, x) :: fs' =>
      match f x with
      | Some j => (k, j) :: defined_props fs'
      | None => defined_props fs'
      end
  end.
End Properties.

(** [JSON.stringify]: a property whose value is [undefined] is left out, an
    [undefined] array element and a non-finite number are written [null].
    [None] is the [undefined] that has no JSON text. *)
Fixpoint stringify (v : jsval) : option json :=
  match v with
  | VUndef => None
  | VStr s => Some (JStr s)
  | VNum NaN => Some JNull
  | VNum (Infinity _) => Some JNull
  | VNum (Finite neg m e) => Some (JNum neg m e)
  | VArr items =>
      Some (JArr (List.map (fun x => match stringify x with
                                     | Some j => j
                                     | None => JNull
                                     end) items))
  | VObj fields => Some (JObj (defined_props stringify fields))
  end.

(** Property read: first binding of [k]. *)
Fixpoint assoc (A : Type) (k : jstring) (fs : list (jstring * A)) : option A :=
  match fs with
  | [] => None
  | (k', x) :: fs' => if str_eqb k k' then Some x else assoc k fs'
  end.

(** [obj?.k] on a JSON document; [null] and the non-objects have no [k]. *)
Definition get (k : string) (j : json) : option json :=
  match j with
  | JObj fs => assoc (js k) fs
  | _ => None
  end.

(** Truthiness of a parsed JSON value. *)
Definition truthy (j : json) : bool :=
  match j with
  | JNull => false
  | JBool b => b
  | JNum _ m e => negb (rounds_to_zero m e)
  | JStr s => truthy_str s
  | JArr _ | JObj _ => true
  end.

(** [a || b] where [a] is a property read ([None]: [undefined]). *)
Definition or_else (a : option json) (b : json) : json :=
  match a with
  | Some x => if truthy x then x else b
  | None => b
  end.

Fixpoint join (sep : jstring) (parts : list jstring) : jstring :=
  match parts with
  | [] => []
  | [p] => p
  | p :: rest => p ++ sep ++ join sep rest
  end.

Section ToString.
(** [Number.prototype.toString] of the binary64 value a decimal stands for: the
    shortest digits that read back to it.  Kept abstract. *)
Variable NumberToString : bool -> N -> Z -> jstring.

(** [String(v)], which [new Error(v)] applies to its message. *)
Fixpoint ToString (j : json) : jstring :=
  match j with
  | JNull => js "null"
  | JBool true => js "true"
  | JBool false => js "false"
  | JNum neg m e => NumberToString neg m e
  | JStr s => s
  | JArr items =>
      join (js ",") (List.map (fun x => match x with
                                        | JNull => []
                                        | _ => ToString x
                                        end) items)
  | JObj _ => js "[object Object]"
  end.
End ToString.

(* ================================================================== *)
(** ** The network as the code sees it *)

Module Http.
Record request : Type := {
  url : jstring;
  method : jstring;
  headers : list (jstring * jstring);
  body : option json;          (* JSON.stringify(payload) *)
  cache : option jstring
}.

(** [jsonBody] is what [response.json()] resolves to; [None] when the body is
    not JSON and the promise rejects. *)
Record response : Type := {
  status : N;
  jsonBody : option json
}.

(** [response.ok] *)
Definition ok (r : response) : bool :=
  (200 <=? status r) && (status r <=? 299).

(** What a [catch] clause can receive. *)
Inductive thrown : Type :=
| ErrorObject (message : jstring)     (* error instanceof Error *)
| OtherValue.

Inductive outcome : Type :=
| Resolves (r : response)
| Rejects (e : thrown).

(** [response.json().catch(() => ({}))] *)
Definition json_or_empty (r : response) : json :=
  match jsonBody r with
  | Some d => d
  | None => JObj []
  end.
End Http.

(* ================================================================== *)
(** ** The OTP session held by [useSubmissionOtp] *)

Module Otp.
Inductive status_t : Type :=
| idle | sending | sent | verifying | verified | error_.

Definition is_verified (s : status_t) : bool :=
  match s with verified => true | _ => false end.

(** Modelled from the spec: the session object returned by the hook
    [useSubmissionOtp] ([@/hooks/use-submission-otp], not among the sources),
    with the three fields the forms read: [status], [sessionId], [error]. *)
Record session : Type := {
  status : status_t;
  sessionId : option jstring;
  error : option jstring
}.

(** Modelled from the spec: [reset()] of the same hook, which "unconditionally
    returns to idle, clearing sessionId and error". *)
Definition reset (s : session) : session :=
  {| status := idle; sessionId := None; error := None |}.
End Otp.

(** [!otp.sessionId] is [negb (present id)]. *)
Definition present (id : option jstring) : bool :=
  match id with
  | Some s => truthy_str s
  | None => false
  end.

(* ================================================================== *)
(** ** What the three forms share: state, toasts, react-hook-form *)

Inductive variant_t : Type := default_variant | destructive.

Record Toast : Type := {
  description : jstring;
  variant : variant_t
}.

(** One mounted form: the field values of [useForm], the hook's session, the
    [otpCode] of [useState], [formState], and the toasts and [fetch] calls so far. *)
Record form (V : Type) : Type := {
  values : V;
  otp : Otp.session;
  otpCode : jstring;
  isSubmitting : bool;
  errors : list (jstring * jstring);
  toasts : list Toast;
  requests : list Http.request
}.

Section FormOps.
Variable V : Type.
Implicit Type st : form V.

Definition toast (t : Toast) st : form V :=
  {| values := values st; otp := otp st; otpCode := otpCode st;
     isSubmitting := isSubmitting st; errors := errors st;
     toasts := toasts st ++ [t]; requests := requests st |}.

Definition setValues (v : V) st : form V :=
  {| values := v; otp := otp st; otpCode := otpCode st;
     isSubmitting := isSubmitting st; errors := errors st;
     toasts := toasts st; requests := requests st |}.

(** [reset(v)] of [useForm] *)
Definition reset (v : V) st : form V := setValues v st.

(** [otp.reset()] *)
Definition otp_reset st : form V :=
  {| values := values st; otp := Otp.reset (otp st); otpCode := otpCode st;
     isSubmitting := isSubmitting st; errors := errors st;
     toasts := toasts st; requests := requests st |}.

Definition setOtpCode (c : jstring) st : form V :=
  {| values := values st; otp := otp st; otpCode := c;
     isSubmitting := isSubmitting st; errors := errors st;
     toasts := toasts st; requests := requests st |}.

(** the call [fetch(...)] leaves in the log *)
Definition sent_request (r : Http.request) st : form V :=
  {| values := values st; otp := otp st; otpCode := otpCode st;
     isSubmitting := isSubmitting st; errors := errors st;
     toasts := toasts st; requests := requests st ++ [r] |}.

Definition setSubmitting (b : bool) st : form V :=
  {| values := values st; otp := otp st; otpCode := otpCode st;
     isSubmitting := b; errors := errors st;
     toasts := toasts st; requests := requests st |}.

Definition setErrors (es : list (jstring * jstring)) st : form V :=
  {| values := values st; otp := otp st; otpCode := otpCode st;
     isSubmitting := isSubmitting st; errors := es;
     toasts := toasts st; requests := requests st |}.

(** The body of the effect [useEffect(() => { otp.reset(); setOtpCode(""); },
    [submittedEmail, otp])]. *)
Definition emailEffect st : form V := setOtpCode [] (otp_reset st).

(** An edit of the campus-email input.  The watched value [submittedEmail] is a
    dependency of the effect, which therefore runs when the value differs from
    the one of the previous render. *)
Definition changeEmail (email : V -> jstring) (setEmail : jstring -> V -> V)
    (e : jstring) st : form V :=
  let st' := setValues (setEmail e (values st)) st in
  if str_eqb (email (values st)) e then st' else emailEffect st'.

(** [register(name, { required: message })] with the current value of the field. *)
Record rule : Type := {
  field : jstring;
  value : jstring;
  message : jstring
}.

Definition violations (rs : list rule) : list (jstring * jstring) :=
  List.map (fun r => (field r, message r))
    (List.filter (fun r => negb (truthy_str (value r))) rs).

(** [handleSubmit(onSubmit)] of react-hook-form: the registered rules are
    checked; [onSubmit] runs only when none is violated; [isSubmitting] is true
    for the duration. *)
Definition handleSubmit (required : V -> list rule)
    (onSubmit : form V -> form V) st : form V :=
  let st1 := setSubmitting true st in
  let st2 :=
    match violations (required (values st1)) with
    | [] => onSubmit (setErrors [] st1)
    | es => setErrors es st1
    end in
  setSubmitting false st2.
End FormOps.

Section FieldArray.
Variable T : Type.

(** [remove(index)] of [useFieldArray] *)
Definition remove (index : nat) (rows : list T) : list T :=
  firstn index rows ++ skipn (S index) rows.

(** [append(row)] of [useFieldArray] *)
Definition append (row : T) (rows : list T) : list T := rows ++ [row].

(** The two buttons of the sub-entity block.  "Remove" is rendered in a row,
    with that row's index, only under [fields.length > 1]; a click that finds no
    such button changes nothing. *)
Inductive click : Type :=
| Add
| Remove (index : nat).

Definition on_click (template : T) (c : click) (rows : list T) : list T :=
  match c with
  | Add => append template rows
  | Remove index =>
      if (1 <? List.length rows)%nat && (index <? List.length rows)%nat
      then remove index rows
      else rows
  end.

Definition clicks (template : T) (cs : list click) (rows : list T) : list T :=
  fold_left (fun l c => on_click template c l) cs rows.
End FieldArray.

(** Rows with their index, as [fields.map((field, index) => ...)] sees them. *)
Definition indexed (T : Type) (rows : list T) : list (nat * T) :=
  combine (seq 0 (List.length rows)) rows.

Definition decimal (n : nat) : string :=
  DecimalString.NilEmpty.string_of_uint (Nat.to_uint n).

(** Modelled from the spec: [DepartmentDetail] of [@/lib/types/department] (not
    among the sources), with the fields the components read; [uuid] is the opaque
    department identifier, which may be missing on a value that reaches
    [DepartmentSubmissionSection]. *)
Record DepartmentDetail : Type := {
  uuid : option jstring;
  name : jstring;
  shortName : option jstring;
  email : option jstring
}.

(** A possibly missing string as the value of an object literal. *)
Definition opt_str (s : option jstring) : jsval :=
  match s with
  | Some x => VStr x
  | None => VUndef
  end.

(** Truthiness of a value of an object literal. *)
Definition truthy_val (v : jsval) : bool :=
  match v with
  | VUndef => false
  | VStr s => truthy_str s
  | VNum NaN => false
  | VNum (Infinity _) => true
  | VNum (Finite _ m _) => negb (m =? 0)
  | VArr _ | VObj _ => true
  end.

(** [obj.k], read for its truthiness. *)
Definition truthy_prop (k : string) (obj : list (jstring * jsval)) : bool :=
  match assoc (js k) obj with
  | Some v => truthy_val v
  | None => false
  end.

Definition destructive_toast (text : jstring) : Toast :=
  {| description := text; variant := destructive |}.

Definition plain_toast (text : jstring) : Toast :=
  {| description := text; variant := default_variant |}.

(* ================================================================== *)
(** ** JournalSubmissionForm *)

Module Journal.
Record AuthorForm : Type := {
  givenName : jstring;
  familyName : jstring;
  email : jstring;
  affiliation : jstring;
  country : jstring
}.

Record FormValues : Type := {
  title : jstring;
  genre : jstring;
  abstract : jstring;
  keywords : jstring;
  discipline : jstring;
  year : jstring;
  volume : jstring;
  number : jstring;
  pages : jstring;
  submittedByName : jstring;
  submittedByEmail : jstring;
  authors : list AuthorForm
}.

Definition blankAuthor : AuthorForm :=
  {| givenName := []; familyName := []; email := []; affiliation := [];
     country := [] |}.

Definition defaultValues : FormValues :=
  {| title := []; genre := []; abstract := []; keywords := [];
     discipline := []; year := []; volume := []; number := []; pages := [];
     submittedByName := []; submittedByEmail := [];
     authors := [blankAuthor] |}.

Definition setSubmittedByEmail (e : jstring) (v : FormValues) : FormValues :=
  {| title := title v; genre := genre v; abstract := abstract v;
     keywords := keywords v; discipline := discipline v; year := year v;
     volume := volume v; number := number v; pages := pages v;
     submittedByName := submittedByName v; submittedByEmail := e;
     authors := authors v |}.

Definition setAuthors (l : list AuthorForm) (v : FormValues) : FormValues :=
  {| title := title v; genre := genre v; abstract := abstract v;
     keywords := keywords v; discipline := discipline v; year := year v;
     volume := volume v; number := number v; pages := pages v;
     submittedByName := submittedByName v;
     submittedByEmail := submittedByEmail v; authors := l |}.

(** The fields registered with [required], in the order they are rendered. *)
Definition required (v : FormValues) : list rule :=
  [ {| field := js "title"; value := title v; message := js "Title is required" |};
    {| field := js "genre"; value := genre v; message := js "Genre is required" |};
    {| field := js "abstract"; value := abstract v;
       message := js "Abstract is required" |} ]
  ++ List.map (fun '(index, author) =>
        {| field := js ("authors." ++ decimal index ++ ".givenName");
           value := givenName author; message := js "Required" |})
       (indexed (authors v))
  ++ [ {| field := js "submittedByName"; value := submittedByName v;
          message := js "Required" |};
       {| field := js "submittedByEmail"; value := submittedByEmail v;
          message := js "Required" |} ].

(** [values.authors.map(...)]: one object literal per author. *)
Definition author_object (author : AuthorForm) : list (jstring * jsval) :=
  [ (js "given_name", VStr (trim (givenName author)));
    (js "family_name", or_undefined (trim (familyName author)));
    (js "email", or_undefined (trim (email author)));
    (js "affiliation", or_undefined (trim (affiliation author)));
    (js "country", or_undefined (trim (country author))) ].

Definition mapped_authors (v : FormValues) : list (list (jstring * jsval)) :=
  List.filter (truthy_prop "given_name") (List.map author_object (authors v)).

Section Submit.
Variable department : DepartmentDetail.

(** The object literal [payload]; [submittedEmail] is the watched value of
    [submittedByEmail]. *)
Definition payload (v : FormValues) (session : Otp.session) : jsval :=
  let year_ := Number (year v) in
  let volume_ := Number (volume v) in
  let number_ := Number (number v) in
  VObj
    [ (js "title", VStr (trim (title v)));
      (js "genre", VStr (trim (genre v)));
      (js "abstract", VStr (trim (abstract v)));
      (js "keywords", or_undefined (trim (keywords v)));
      (js "discipline", or_undefined (trim (discipline v)));
      (js "year", nan_to_undefined year_);
      (js "volume", nan_to_undefined volume_);
      (js "number", nan_to_undefined number_);
      (js "pages", or_undefined (trim (pages v)));
      (js "submitted_by_name", VStr (trim (submittedByName v)));
      (js "submitted_by_email", VStr (trim (submittedByEmail v)));
      (js "department", opt_str (uuid department));
      (js "authors", VArr (List.map VObj (mapped_authors v)));
      (js "otp_session", opt_str (Otp.sessionId session)) ].

(** The call [fetch("/api/submissions/journal", { method, headers, body })]. *)
Definition request (v : FormValues) (session : Otp.session) : Http.request :=
  {| Http.url := js "/api/submissions/journal";
     Http.method := js "POST";
     Http.headers := [(js "Content-Type", js "application/json")];
     Http.body := stringify (payload v session);
     Http.cache := None |}.

Variable NumberToString : bool -> N -> Z -> jstring.
Variable fetch : Http.request -> Http.outcome.

Definition onSubmit (st : form FormValues) : form FormValues :=
  if negb (Otp.is_verified (Otp.status (otp st)))
     || negb (present (Otp.sessionId (otp st)))
  then toast (destructive_toast
                (js "Verify your campus email before submitting")) st
  else if (List.length (mapped_authors (values st)) =? 0)%nat
  then toast (destructive_toast (js "Add at least one author")) st
  else
    let request := request (values st) (otp st) in
    let st := sent_request request st in
    match fetch request with
    | Http.Resolves response =>
        let data := Http.json_or_empty response in
        if negb (Http.ok response) then
          (* throw new Error(message), caught below as an Error *)
          let message :=
            or_else (get "detail" data)
              (or_else (get "error" data)
                 (JStr (js "Failed to submit article"))) in
          toast (destructive_toast (ToString NumberToString message)) st
        else
          setOtpCode []
            (otp_reset
               (reset defaultValues
                  (toast (plain_toast (js "Journal article submitted")) st)))
    | Http.Rejects (Http.ErrorObject message) =>
        toast (destructive_toast message) st
    | Http.Rejects Http.OtherValue =>
        toast (destructive_toast (js "Failed to submit article")) st
    end.
End Submit.
End Journal.

(* ================================================================== *)
(** ** ProjectSubmissionForm *)

Module Project.
Record ProjectMemberForm : Type := {
  fullName : jstring;
  rollNumber : jstring;
  email : jstring;
  role : jstring
}.

Record FormValues : Type := {
  title : jstring;
  abstract : jstring;
  description : jstring;
  projectType : jstring;
  supervisorName : jstring;
  supervisorEmail : jstring;
  startDate : jstring;
  endDate : jstring;
  academicYear : jstring;
  githubUrl : jstring;
  demoUrl : jstring;
  technologiesUsed : jstring;
  submittedByName : jstring;
  submittedByEmail : jstring;
  members : list ProjectMemberForm
}.

Definition blankMember : ProjectMemberForm :=
  {| fullName := []; rollNumber := []; email := []; role := js "Team Member" |}.

Definition defaultValues : FormValues :=
  {| title := []; abstract := []; description := [];
     projectType := js "final_year"; supervisorName := [];
     supervisorEmail := []; startDate := []; endDate := [];
     academicYear := []; githubUrl := []; demoUrl := [];
     technologiesUsed := []; submittedByName := []; submittedByEmail := [];
     members := [blankMember] |}.

Definition setSubmittedByEmail (e : jstring) (v : FormValues) : FormValues :=
  {| title := title v; abstract := abstract v; description := description v;
     projectType := projectType v; supervisorName := supervisorName v;
     supervisorEmail := supervisorEmail v; startDate := startDate v;
     endDate := endDate v; academicYear := academicYear v;
     githubUrl := githubUrl v; demoUrl := demoUrl v;
     technologiesUsed := technologiesUsed v;
     submittedByName := submittedByName v; submittedByEmail := e;
     members := members v |}.

Definition setMembers (l : list ProjectMemberForm) (v : FormValues)
    : FormValues :=
  {| title := title v; abstract := abstract v; description := description v;
     projectType := projectType v; supervisorName := supervisorName v;
     supervisorEmail := supervisorEmail v; startDate := startDate v;
     endDate := endDate v; academicYear := academicYear v;
     githubUrl := githubUrl v; demoUrl := demoUrl v;
     technologiesUsed := technologiesUsed v;
     submittedByName := submittedByName v;
     submittedByEmail := submittedByEmail v; members := l |}.

(** The fields registered with [required], in the order they are rendered; of
    the member rows only the first ([index === 0]) carries the rule. *)
Definition required (v : FormValues) : list rule :=
  [ {| field := js "title"; value := title v; message := js "Title is required" |};
    {| field := js "supervisorName"; value := supervisorName v;
       message := js "Supervisor name is required" |} ]
  ++ List.flat_map (fun '(index, member) =>
        if (index =? 0)%nat then
          [ {| field := js ("members." ++ decimal index ++ ".fullName");
               value := fullName member; message := js "Name is required" |};
            {| field := js ("members." ++ decimal index ++ ".rollNumber");
               value := rollNumber member;
               message := js "Roll number is required" |} ]
        else [])
       (indexed (members v))
  ++ [ {| field := js "submittedByName"; value := submittedByName v;
          message := js "Your name is required" |};
       {| field := js "submittedByEmail"; value := submittedByEmail v;
          message := js "Campus email is required" |} ].

(** [values.members.map(...)]: one object literal per member. *)
Definition member_object (member : ProjectMemberForm)
    : list (jstring * jsval) :=
  [ (js "full_name", VStr (trim (fullName member)));
    (js "roll_number", VStr (trim (rollNumber member)));
    (js "email", or_undefined (trim (email member)));
    (js "role", or_undefined (trim (role member))) ].

Definition mapped_members (v : FormValues) : list (list (jstring * jsval)) :=
  List.filter
    (fun member => truthy_prop "full_name" member
                   && truthy_prop "roll_number" member)
    (List.map member_object (members v)).

Section Submit.
Variable department : DepartmentDetail.

Definition payload (v : FormValues) (session : Otp.session) : jsval :=
  VObj
    [ (js "title", VStr (trim (title v)));
      (js "abstract", VStr (trim (abstract v)));
      (js "description", VStr (trim (description v)));
      (js "project_type", VStr (projectType v));
      (js "supervisor_name", VStr (trim (supervisorName v)));
      (js "supervisor_email", or_undefined (trim (supervisorEmail v)));
      (js "start_date", or_undefined (startDate v));
      (js "end_date", or_undefined (endDate v));
      (js "academic_year", or_undefined (trim (academicYear v)));
      (js "github_url", or_undefined (trim (githubUrl v)));
      (js "demo_url", or_undefined (trim (demoUrl v)));
      (js "technologies_used", or_undefined (trim (technologiesUsed v)));
      (js "submitted_by_name", VStr (trim (submittedByName v)));
      (js "submitted_by_email", VStr (trim (submittedByEmail v)));
      (js "department", opt_str (uuid department));
      (js "members", VArr (List.map VObj (mapped_members v)));
      (js "otp_session", opt_str (Otp.sessionId session)) ].

(** The call [fetch("/api/submissions/project", { method, headers, body })]. *)
Definition request (v : FormValues) (session : Otp.session) : Http.request :=
  {| Http.url := js "/api/submissions/project";
     Http.method := js "POST";
     Http.headers := [(js "Content-Type", js "application/json")];
     Http.body := stringify (payload v session);
     Http.cache := None |}.

Variable NumberToString : bool -> N -> Z -> jstring.
Variable fetch : Http.request -> Http.outcome.

Definition onSubmit (st : form FormValues) : form FormValues :=
  if negb (Otp.is_verified (Otp.status (otp st)))
     || negb (present (Otp.sessionId (otp st)))
  then toast (destructive_toast
                (js "Verify your campus email before submitting")) st
  else if (List.length (mapped_members (values st)) =? 0)%nat
  then toast (destructive_toast (js "Add at least one team member")) st
  else
    let request := request (values st) (otp st) in
    let st := sent_request request st in
    match fetch request with
    | Http.Resolves response =>
        let data := Http.json_or_empty response in
        if negb (Http.ok response) then
          (* throw new Error(message), caught below as an Error *)
          let message :=
            or_else (get "detail" data)
              (or_else (get "error" data)
                 (JStr (js "Failed to submit project"))) in
          toast (destructive_toast (ToString NumberToString message)) st
        else
          setOtpCode []
            (otp_reset
               (reset defaultValues
                  (toast (plain_toast (js "Project submitted for review")) st)))
    | Http.Rejects (Http.ErrorObject message) =>
        toast (destructive_toast message) st
    | Http.Rejects Http.OtherValue =>
        toast (destructive_toast (js "Failed to submit project")) st
    end.
End Submit.
End Project.

(* ================================================================== *)
(** ** ResearchSubmissionForm *)

Module Research.
Record ParticipantForm : Type := {
  fullName : jstring;
  participantType : jstring;
  email : jstring;
  role : jstring
}.

Record FormValues : Type := {
  title : jstring;
  abstract : jstring;
  description : jstring;
  researchType : jstring;
  status : jstring;
  principalInvestigator : jstring;
  piEmail : jstring;
  startDate : jstring;
  endDate : jstring;
  fundingAgency : jstring;
  fundingAmount : jstring;
  keywords : jstring;
  methodology : jstring;
  expectedOutcomes : jstring;
  publicationsUrl : jstring;
  projectUrl : jstring;
  githubUrl : jstring;
  submittedByName : jstring;
  submittedByEmail : jstring;
  participants : list ParticipantForm
}.

Definition blankParticipant : ParticipantForm :=
  {| fullName := []; participantType := js "student"; email := [];
     role := js "Researcher" |}.

Definition defaultValues : FormValues :=
  {| title := []; abstract := []; description := [];
     researchType := js "applied"; status := js "proposed";
     principalInvestigator := []; piEmail := []; startDate := [];
     endDate := []; fundingAgency := []; fundingAmount := []; keywords := [];
     methodology := []; expectedOutcomes := []; publicationsUrl := [];
     projectUrl := []; githubUrl := []; submittedByName := [];
     submittedByEmail := []; participants := [blankParticipant] |}.

Definition setSubmittedByEmail (e : jstring) (v : FormValues) : FormValues :=
  {| title := title v; abstract := abstract v; description := description v;
     researchType := researchType v; status := status v;
     principalInvestigator := principalInvestigator v; piEmail := piEmail v;
     startDate := startDate v; endDate := endDate v;
     fundingAgency := fundingAgency v; fundingAmount := fundingAmount v;
     keywords := keywords v; methodology := methodology v;
     expectedOutcomes := expectedOutcomes v;
     publicationsUrl := publicationsUrl v; projectUrl := projectUrl v;
     githubUrl := githubUrl v; submittedByName := submittedByName v;
     submittedByEmail := e; participants := participants v |}.

Definition setParticipants (l : list ParticipantForm) (v : FormValues)
    : FormValues :=
  {| title := title v; abstract := abstract v; description := description v;
     researchType := researchType v; status := status v;
     principalInvestigator := principalInvestigator v; piEmail := piEmail v;
     startDate := startDate v; endDate := endDate v;
     fundingAgency := fundingAgency v; fundingAmount := fundingAmount v;
     keywords := keywords v; methodology := methodology v;
     expectedOutcomes := expectedOutcomes v;
     publicationsUrl := publicationsUrl v; projectUrl := projectUrl v;
     githubUrl := githubUrl v; submittedByName := submittedByName v;
     submittedByEmail := submittedByEmail v; participants := l |}.

(** The fields registered with [required], in the order they are rendered; no
    participant field is among them. *)
Definition required (v : FormValues) : list rule :=
  [ {| field := js "title"; value := title v; message := js "Title is required" |};
    {| field := js "principalInvestigator"; value := principalInvestigator v;
       message := js "Required" |};
    {| field := js "piEmail"; value := piEmail v; message := js "Required" |};
    {| field := js "submittedByName"; value := submittedByName v;
       message := js "Required" |};
    {| field := js "submittedByEmail"; value := submittedByEmail v;
       message := js "Required" |} ].

Section Submit.
Variable department : DepartmentDetail.

(** [values.participants.map(...)]: one object literal per participant. *)
Definition participant_object (participant : ParticipantForm)
    : list (jstring * jsval) :=
  [ (js "full_name", VStr (trim (fullName participant)));
    (js "participant_type", VStr (participantType participant));
    (js "email", or_undefined (trim (email participant)));
    (js "role", or_undefined (trim (role participant)));
    (js "department", opt_str (uuid department)) ].

Definition mapped_participants (v : FormValues)
    : list (list (jstring * jsval)) :=
  List.filter (truthy_prop "full_name")
    (List.map participant_object (participants v)).

Definition payload (v : FormValues) (session : Otp.session) : jsval :=
  let funding := Number (fundingAmount v) in
  VObj
    [ (js "title", VStr (trim (title v)));
      (js "abstract", VStr (trim (abstract v)));
      (js "description", VStr (trim (description v)));
      (js "research_type", VStr (researchType v));
      (js "status", VStr (status v));
      (js "principal_investigator", VStr (trim (principalInvestigator v)));
      (js "pi_email", VStr (trim (piEmail v)));
      (js "start_date", or_undefined (startDate v));
      (js "end_date", or_undefined (endDate v));
      (js "funding_agency", or_undefined (trim (fundingAgency v)));
      (js "funding_amount", nan_to_undefined funding);
      (js "keywords", or_undefined (trim (keywords v)));
      (js "methodology", or_undefined (trim (methodology v)));
      (js "expected_outcomes", or_undefined (trim (expectedOutcomes v)));
      (js "publications_url", or_undefined (trim (publicationsUrl v)));
      (js "project_url", or_undefined (trim (projectUrl v)));
      (js "github_url", or_undefined (trim (githubUrl v)));
      (js "submitted_by_name", VStr (trim (submittedByName v)));
      (js "submitted_by_email", VStr (trim (submittedByEmail v)));
      (js "department", opt_str (uuid department));
      (js "participants", VArr (List.map VObj (mapped_participants v)));
      (js "otp_session", opt_str (Otp.sessionId session)) ].

(** The call [fetch("/api/submissions/research", { method, headers, body })]. *)
Definition request (v : FormValues) (session : Otp.session) : Http.request :=
  {| Http.url := js "/api/submissions/research";
     Http.method := js "POST";
     Http.headers := [(js "Content-Type", js "application/json")];
     Http.body := stringify (payload v session);
     Http.cache := None |}.

Variable NumberToString : bool -> N -> Z -> jstring.
Variable fetch : Http.request -> Http.outcome.

(** No check of [participants.length] here: the list may be empty. *)
Definition onSubmit (st : form FormValues) : form FormValues :=
  if negb (Otp.is_verified (Otp.status (otp st)))
     || negb (present (Otp.sessionId (otp st)))
  then toast (destructive_toast
                (js "Verify your campus email before submitting")) st
  else
    let request := request (values st) (otp st) in
    let st := sent_request request st in
    match fetch request with
    | Http.Resolves response =>
        let data := Http.json_or_empty response in
        if negb (Http.ok response) then
          (* throw new Error(message), caught below as an Error *)
          let message :=
            or_else (get "detail" data)
              (or_else (get "error" data)
                 (JStr (js "Failed to submit research"))) in
          toast (destructive_toast (ToString NumberToString message)) st
        else
          setOtpCode []
            (otp_reset
               (reset defaultValues
                  (toast (plain_toast
                            (js "Research submitted for departmental review"))
                     st)))
    | Http.Rejects (Http.ErrorObject message) =>
        toast (destructive_toast message) st
    | Http.Rejects Http.OtherValue =>
        toast (destructive_toast (js "Failed to submit research")) st
    end.
End Submit.
End Research.

(* ================================================================== *)
(** ** The three controllers side by side *)

Inductive entity : Type := project | research | journal.

Definition values_of (e : entity) : Type :=
  match e with
  | project => Project.FormValues
  | research => Research.FormValues
  | journal => Journal.FormValues
  end.

Definition defaultValues (e : entity) : values_of e :=
  match e with
  | project => Project.defaultValues
  | research => Research.defaultValues
  | journal => Journal.defaultValues
  end.

Definition submittedByEmail (e : entity) : values_of e -> jstring :=
  match e with
  | project => Project.submittedByEmail
  | research => Research.submittedByEmail
  | journal => Journal.submittedByEmail
  end.

Definition setSubmittedByEmail (e : entity) : jstring -> values_of e -> values_of e :=
  match e with
  | project => Project.setSubmittedByEmail
  | research => Research.setSubmittedByEmail
  | journal => Journal.setSubmittedByEmail
  end.

Definition required (e : entity) : values_of e -> list rule :=
  match e with
  | project => Project.required
  | research => Research.required
  | journal => Journal.required
  end.

Definition request (e : entity) (department : DepartmentDetail)
    : values_of e -> Otp.session -> Http.request :=
  match e with
  | project => Project.request department
  | research => Research.request department
  | journal => Journal.request department
  end.

Definition onSubmit (e : entity) (department : DepartmentDetail)
    (NumberToString : bool -> N -> Z -> jstring)
    (fetch : Http.request -> Http.outcome)
    : form (values_of e) -> form (values_of e) :=
  match e with
  | project => Project.onSubmit department NumberToString fetch
  | research => Research.onSubmit department NumberToString fetch
  | journal => Journal.onSubmit department NumberToString fetch
  end.

(** The submit button: [<form onSubmit={handleSubmit(onSubmit)}>]. *)
Definition submit (e : entity) (department : DepartmentDetail)
    (NumberToString : bool -> N -> Z -> jstring)
    (fetch : Http.request -> Http.outcome)
    : form (values_of e) -> form (values_of e) :=
  handleSubmit (required e) (onSubmit e department NumberToString fetch).

(** The campus-email input and the effect that watches it. *)
Definition editEmail (e : entity) : jstring -> form (values_of e) -> form (values_of e) :=
  changeEmail (submittedByEmail e) (setSubmittedByEmail e).

(** Number of rows of the sub-entity block ([fields.length]). *)
Definition rows (e : entity) : values_of e -> nat :=
  match e with
  | project => fun v => List.length (Project.members v)
  | research => fun v => List.length (Research.participants v)
  | journal => fun v => List.length (Journal.authors v)
  end.

(** A click on "Add ..." or on a row's "Remove ..." button; the template of a new
    row is the one written in the [append(...)] call of each form. *)
Definition rowClick (e : entity) (c : click) : values_of e -> values_of e :=
  match e with
  | project => fun v =>
      Project.setMembers (on_click Project.blankMember c (Project.members v)) v
  | research => fun v =>
      Research.setParticipants
        (on_click Research.blankParticipant c (Research.participants v)) v
  | journal => fun v =>
      Journal.setAuthors (on_click Journal.blankAuthor c (Journal.authors v)) v
  end.

Definition rowClicks (e : entity) (cs : list click) (v : values_of e) : values_of e :=
  fold_left (fun v c => rowClick e c v) cs v.

(** A form as [useForm({ defaultValues })], [useSubmissionOtp(...)] and
    [useState("")] leave it when it mounts. *)
Definition mounted (e : entity) : form (values_of e) :=
  {| values := defaultValues e;
     otp := {| Otp.status := Otp.idle; Otp.sessionId := None; Otp.error := None |};
     otpCode := [];
     isSubmitting := false;
     errors := [];
     toasts := [];
     requests := [] |}.

(** The literal after the last [||] of [message], also the text of the [catch]
    clause for a thrown value that is not an [Error]. *)
Definition fallback (e : entity) : jstring :=
  match e with
  | project => js "Failed to submit project"
  | research => js "Failed to submit research"
  | journal => js "Failed to submit article"
  end.

(* ================================================================== *)
(** ** DepartmentSubmissionSection *)

(** What the component renders: the heading, the help address, and the three
    forms in their tabs, each with the [department] prop it is given. *)
Record section_view : Type := {
  heading : jstring;
  helpEmail : jstring;
  tabs : list (entity * DepartmentDetail)
}.

Definition or_string (a : option jstring) (b : jstring) : jstring :=
  match a with
  | Some x => if truthy_str x then x else b
  | None => b
  end.

(** [null] is [None]; [department?.uuid] is falsy for a missing [department], a
    missing [uuid] and an empty one. *)
Definition DepartmentSubmissionSection (department : option DepartmentDetail)
    : option section_view :=
  match department with
  | None => None
  | Some d =>
      if negb (present (uuid d)) then None
      else Some
        {| heading := js "Submit work to " ++ or_string (shortName d) (name d);
           helpEmail := or_string (email d) (js "info@tcioe.edu.np");
           tabs := [(project, d); (research, d); (journal, d)] |}
  end.

(* ================================================================== *)
(** ** A JSON value parsed and written again *)

(** [JSON.stringify] of what [request.json()] or [response.json()] parsed: the
    same document, but for the numbers that binary64 cannot hold: one that rounds
    to [Infinity] is written [null], one that rounds to zero is written [0]
    (without its sign). *)
Fixpoint reserialise (j : json) : json :=
  match j with
  | JNull => JNull
  | JBool b => JBool b
  | JNum neg m e =>
      if rounds_to_infinity m e then JNull
      else if rounds_to_zero m e then JNum false 0 0
      else JNum neg m e
  | JStr s => JStr s
  | JArr items => JArr (List.map reserialise items)
  | JObj fields =>
      JObj (List.map (fun p => let '(k, x) := p in (k, reserialise x)) fields)
  end.

(* ================================================================== *)
(** ** The proxy routes *)

Module Route.
(** [request.json()]: the parsed body, [None] when it rejects. *)
Record NextRequest : Type := {
  json_ : option json
}.

(** A response built by [NextResponse.json]: its status and its JSON body. *)
Record NextResponse : Type := {
  status : N;
  body : json
}.

(** The statuses a response with a body may have: 200 to 599, the null-body
    statuses 204, 205 and 304 apart. *)
Definition accepts_body (status : N) : bool :=
  (200 <=? status) && (status <=? 599)
  && negb ((status =? 204) || (status =? 205) || (status =? 304)).

(** [NextResponse.json(data, { status })]: the response with [data] written as
    JSON; [None] when it throws, which it does (a [RangeError], a [TypeError])
    for a status that a response with a body may not have. *)
Definition NextResponse_json (data : json) (status : N) : option NextResponse :=
  if accepts_body status
  then Some {| status := status; body := reserialise data |}
  else None.

(** One run of a handler: the response it returns, the upstream calls it made,
    what it wrote with [console.error]. *)
Record run : Type := {
  response : NextResponse;
  upstream : list Http.request;
  console : list jstring
}.

Section Routes.
(** [API_BASE] of [@/lib/env] (not among the sources): a string or nothing. *)
Variable API_BASE : option jstring.
Variable fetch : Http.request -> Http.outcome.

Definition API_BASE_URL : jstring :=
  or_string API_BASE (js "https://cdn.tcioe.edu.np").

Definition upstream_headers : list (jstring * jstring) :=
  [ (js "Content-Type", js "application/json");
    (js "Accept", js "application/json") ].

(** [app/api/submissions/journal/route.ts] *)
Definition POST_journal (request : NextRequest) : run :=
  let caught calls :=
    {| response := {| status := 500;
                      body := JObj [(js "error",
                                     JStr (js "Unable to submit journal article"))] |};
       upstream := calls;
       console := [js "journal submission failed"] |} in
  match json_ request with
  | None => caught []
  | Some payload =>
      let call :=
        {| Http.url := API_BASE_URL
                       ++ js "/api/v1/public/journal-mod/articles/submit/";
           Http.method := js "POST";
           Http.headers := upstream_headers;
           Http.body := Some (reserialise payload);
           Http.cache := Some (js "no-store") |} in
      match fetch call with
      | Http.Rejects _ => caught [call]
      | Http.Resolves response =>
          let data := Http.json_or_empty response in
          match NextResponse_json data (Http.status response) with
          | Some answer =>
              {| response := answer; upstream := [call]; console := [] |}
          | None => caught [call]
          end
      end
  end.

(** [app/api/submissions/research/route.ts] *)
Definition POST_research (request : NextRequest) : run :=
  let caught calls :=
    {| response := {| status := 500;
                      body := JObj [(js "error",
                                     JStr (js "Unable to submit research"))] |};
       upstream := calls;
       console := [js "research submission failed"] |} in
  match json_ request with
  | None => caught []
  | Some payload =>
      let call :=
        {| Http.url := API_BASE_URL
                       ++ js "/api/v1/public/research-mod/research/submit/";
           Http.method := js "POST";
           Http.headers := upstream_headers;
           Http.body := Some (reserialise payload);
           Http.cache := Some (js "no-store") |} in
      match fetch call with
      | Http.Rejects _ => caught [call]
      | Http.Resolves response =>
          let data := Http.json_or_empty response in
          match NextResponse_json data (Http.status response) with
          | Some answer =>
              {| response := answer; upstream := [call]; console := [] |}
          | None => caught [call]
          end
      end
  end.

(** Modelled from the spec: the route of [/api/submissions/project], whose file
    is not among the sources.  The spec describes the three routes in the same
    words ("each proxy forwards the request body ... relays the upstream's ...
    HTTP status and JSON body", failure "500 + {error: Unable to submit
    project}"), so it is given the shape of the other two, with the same calls;
    the suffix of its upstream path is not given and stays a parameter, and
    nothing is said of what it logs. *)
Definition POST_project (suffix : jstring) (request : NextRequest) : run :=
  let caught calls :=
    {| response := {| status := 500;
                      body := JObj [(js "error",
                                     JStr (js "Unable to submit project"))] |};
       upstream := calls;
       console := [] |} in
  match json_ request with
  | None => caught []
  | Some payload =>
      let call :=
        {| Http.url := API_BASE_URL ++ suffix;
           Http.method := js "POST";
           Http.headers := upstream_headers;
           Http.body := Some (reserialise payload);
           Http.cache := Some (js "no-store") |} in
      match fetch call with
      | Http.Rejects _ => caught [call]
      | Http.Resolves response =>
          let data := Http.json_or_empty response in
          match NextResponse_json data (Http.status response) with
          | Some answer =>
              {| response := answer; upstream := [call]; console := [] |}
          | None => caught [call]
          end
      end
  end.

Variable project_suffix : jstring.

Definition suffix (e : entity) : jstring :=
  match e with
  | project => project_suffix
  | research => js "/api/v1/public/research-mod/research/submit/"
  | journal => js "/api/v1/public/journal-mod/articles/submit/"
  end.

Definition error_message (e : entity) : jstring :=
  match e with
  | project => js "Unable to submit project"
  | research => js "Unable to submit research"
  | journal => js "Unable to submit journal article"
  end.

Definition POST (e : entity) : NextRequest -> run :=
  match e with
  | project => POST_project project_suffix
  | research => POST_research
  | journal => POST_journal
  end.
End Routes.
End Route.

(* ================================================================== *)
(** ** Reading the claims off the definitions *)

(** The guards of [onSubmit] that stand before the [fetch] call: a verified
    session with its identifier and, in the journal and project forms, at least
    one row left by the [filter]. *)
Definition ready (e : entity) (st : form (values_of e)) : bool :=
  Otp.is_verified (Otp.status (otp st))
  && present (Otp.sessionId (otp st))
  && match e return form (values_of e) -> bool with
     | project => fun st =>
         negb (List.length (Project.mapped_members (values st)) =? 0)%nat
     | research => fun _ => true
     | journal => fun st =>
         negb (List.length (Journal.mapped_authors (values st)) =? 0)%nat
     end st.

(** A key of the JSON body of a request. *)
Definition sent (k : string) (r : Http.request) : option json :=
  match Http.body r with
  | Some j => get k j
  | None => None
  end.

Fixpoint bound (A : Type) (k : jstring) (fs : list (jstring * A)) : bool :=
  match fs with
  | [] => false
  | (k', _) :: fs' => str_eqb k k' || bound k fs'
  end.

Fixpoint unique_keys (A : Type) (fs : list (jstring * A)) : bool :=
  match fs with
  | [] => true
  | (k, _) :: fs' => negb (bound k fs') && unique_keys fs'
  end.

(** The session [Otp.reset] leaves. *)
Definition idle_session : Otp.session :=
  {| Otp.status := Otp.idle; Otp.sessionId := None; Otp.error := None |}.

Definition verify_first : Toast :=
  destructive_toast (js "Verify your campus email before submitting").

(** What the [toast] of the failure path shows: the message of a thrown [Error];
    for an answer outside 2xx the [detail] of its body if that is truthy, else its
    [error] if that is truthy, each as a string; else the fallback of the form. *)
Definition shown_message (e : entity) (NumberToString : bool -> N -> Z -> jstring)
    (o : Http.outcome) : jstring :=
  match o with
  | Http.Rejects (Http.ErrorObject m) => m
  | Http.Rejects Http.OtherValue => fallback e
  | Http.Resolves r =>
      let data := Http.json_or_empty r in
      match get "detail" data with
      | Some d =>
          if truthy d then ToString NumberToString d
          else match get "error" data with
               | Some x => if truthy x then ToString NumberToString x else fallback e
               | None => fallback e
               end
      | None =>
          match get "error" data with
          | Some x => if truthy x then ToString NumberToString x else fallback e
          | None => fallback e
          end
      end
  end.

(** The gateway call failed: a status outside 2xx, or [fetch] threw. *)
Definition failed (o : Http.outcome) : bool :=
  match o with
  | Http.Resolves r => negb (Http.ok r)
  | Http.Rejects _ => true
  end.

(** The reading of C7 as it is written, for a call that threw: there is no
    upstream body, hence neither [detail] nor [error], and the fallback of the
    form would be shown. *)
Definition message_without_body (e : entity) : jstring := fallback e.

Definition ram : Journal.AuthorForm :=
  {| Journal.givenName := js "Ram"; Journal.familyName := [];
     Journal.email := []; Journal.affiliation := []; Journal.country := [] |}.

(** The journal form of scenario 7 of the spec, with its session verified. *)
Definition edge_ai : form (values_of journal) :=
  {| values :=
       {| Journal.title := js "Edge AI";
          Journal.genre := js "Original Article";
          Journal.abstract := js "...";
          Journal.keywords := []; Journal.discipline := [];
          Journal.year := []; Journal.volume := []; Journal.number := [];
          Journal.pages := [];
          Journal.submittedByName := []; Journal.submittedByEmail := [];
          Journal.authors := [ram] |};
     otp := {| Otp.status := Otp.verified; Otp.sessionId := Some (js "sess-1");
               Otp.error := None |};
     otpCode := js "123456"; isSubmitting := false; errors := [];
     toasts := []; requests := [] |}.

Definition computer : DepartmentDetail :=
  {| uuid := Some (js "dep-1"); name := js "Computer"; shortName := None;
     email := None |}.

(** A stand-in for [Number.prototype.toString] where no number is shown. *)
Definition no_digits : bool -> N -> Z -> jstring := fun _ _ _ => [].

(** Three answers of the network: the browser cannot reach the route; the route
    answers 201; it answers 400 with the body of scenario 10 of the spec. *)
Definition offline : Http.request -> Http.outcome :=
  fun _ => Http.Rejects (Http.ErrorObject (js "Failed to fetch")).

Definition created : Http.request -> Http.outcome :=
  fun _ => Http.Resolves {| Http.status := 201; Http.jsonBody := Some (JObj []) |}.

Definition duplicate_title : Http.request -> Http.outcome :=
  fun _ => Http.Resolves
    {| Http.status := 400;
       Http.jsonBody := Some (JObj [(js "detail", JStr (js "Duplicate title"))]) |}.

(** A form whose email has just been verified. *)
Definition just_verified (e : entity) : form (values_of e) :=
  {| values := defaultValues e;
     otp := {| Otp.status := Otp.verified; Otp.sessionId := Some (js "sess-1");
               Otp.error := None |};
     otpCode := js "123456"; isSubmitting := false; errors := [];
     toasts := []; requests := [] |}.

(** A project form with a start date of one space, all else as mounted. *)
Definition blank_start_date : Project.FormValues :=
  {| Project.title := []; Project.abstract := []; Project.description := [];
     Project.projectType := js "final_year"; Project.supervisorName := [];
     Project.supervisorEmail := []; Project.startDate := js " ";
     Project.endDate := []; Project.academicYear := [];
     Project.githubUrl := []; Project.demoUrl := [];
     Project.technologiesUsed := []; Project.submittedByName := [];
     Project.submittedByEmail := [];
     Project.members := [Project.blankMember] |}.

(** How a payload literal treats a field of the form. *)
Inductive treatment : Type :=
| Trimmed        (* v.trim() || undefined *)
| AsIs           (* v || undefined *)
| Numeric        (* Number.isNaN(Number(v)) ? undefined : Number(v) *)
| AlwaysSent.    (* v.trim() *)

(** The scalar fields that the forms register without [required], each with the
    key and the treatment it has in the payload literal. *)
Definition optional_fields (e : entity)
    : list (string * (values_of e -> jstring) * treatment) :=
  match e with
  | journal =>
      [ ("keywords"%string, Journal.keywords, Trimmed);
        ("discipline"%string, Journal.discipline, Trimmed);
        ("year"%string, Journal.year, Numeric);
        ("volume"%string, Journal.volume, Numeric);
        ("number"%string, Journal.number, Numeric);
        ("pages"%string, Journal.pages, Trimmed) ]
  | project =>
      [ ("abstract"%string, Project.abstract, AlwaysSent);
        ("description"%string, Project.description, AlwaysSent);
        ("supervisor_email"%string, Project.supervisorEmail, Trimmed);
        ("start_date"%string, Project.startDate, AsIs);
        ("end_date"%string, Project.endDate, AsIs);
        ("academic_year"%string, Project.academicYear, Trimmed);
        ("github_url"%string, Project.githubUrl, Trimmed);
        ("demo_url"%string, Project.demoUrl, Trimmed);
        ("technologies_used"%string, Project.technologiesUsed, Trimmed) ]
  | research =>
      [ ("abstract"%string, Research.abstract, AlwaysSent);
        ("description"%string, Research.description, AlwaysSent);
        ("start_date"%string, Research.startDate, AsIs);
        ("end_date"%string, Research.endDate, AsIs);
        ("funding_agency"%string, Research.fundingAgency, Trimmed);
        ("funding_amount"%string, Research.fundingAmount, Numeric);
        ("keywords"%string, Research.keywords, Trimmed);
        ("methodology"%string, Research.methodology, Trimmed);
        ("expected_outcomes"%string, Research.expectedOutcomes, Trimmed);
        ("publications_url"%string, Research.publicationsUrl, Trimmed);
        ("project_url"%string, Research.projectUrl, Trimmed);
        ("github_url"%string, Research.githubUrl, Trimmed) ]
  end.

(** When the amended C2 says a key is left out. *)
Definition omitted_when (t : treatment) (s : jstring) : bool :=
  match t with
  | Trimmed => negb (truthy_str (trim s))
  | AsIs => negb (truthy_str s)
  | Numeric => isNaN (Number s)
  | AlwaysSent => false
  end.

(** The research form of scenario 9 of the spec. *)
Definition funding_abc : Research.FormValues :=
  {| Research.title := js "Soil sensors"; Research.abstract := [];
     Research.description := []; Research.researchType := js "applied";
     Research.status := js "proposed";
     Research.principalInvestigator := js "Sita"; Research.piEmail := js "s@tcioe.edu.np";
     Research.startDate := []; Research.endDate := [];
     Research.fundingAgency := []; Research.fundingAmount := js "abc";
     Research.keywords := []; Research.methodology := [];
     Research.expectedOutcomes := []; Research.publicationsUrl := [];
     Research.projectUrl := []; Research.githubUrl := [];
     Research.submittedByName := js "Sita";
     Research.submittedByEmail := js "s@tcioe.edu.np";
     Research.participants := [Research.blankParticipant] |}.

(** The rows that keep their identifying field after trimming, in the words of
    C3: authors with a given name, members with a full name and a roll number,
    participants with a full name. *)
Definition identified (e : entity) : values_of e -> nat :=
  match e with
  | project => fun v =>
      List.length
        (List.filter
           (fun m => truthy_str (trim (Project.fullName m))
                     && truthy_str (trim (Project.rollNumber m)))
           (Project.members v))
  | research => fun v =>
      List.length
        (List.filter (fun p => truthy_str (trim (Research.fullName p)))
           (Research.participants v))
  | journal => fun v =>
      List.length
        (List.filter (fun a => truthy_str (trim (Journal.givenName a)))
           (Journal.authors v))
  end.

(** The text of the toast of the guard, where a form has one. *)
Definition at_least_one (e : entity) : jstring :=
  match e with
  | project => js "Add at least one team member"
  | research => []
  | journal => js "Add at least one author"
  end.

(** The answer of a route whose [try] block threw. *)
Definition unable (e : entity) : Route.NextResponse :=
  {| Route.status := 500;
     Route.body := JObj [(js "error", JStr (Route.error_message e))] |}.

(** The base URL the routes are configured with: [API_BASE] when it is a
    non-empty string, else the documented default. *)
Definition configured_base (API_BASE : option jstring) : jstring :=
  match API_BASE with
  | Some (c :: rest) => c :: rest
  | _ => js "https://cdn.tcioe.edu.np"
  end.

(** The upstream call a route makes for a request body that parsed to
    [payload]. *)
Definition forwarded (API_BASE : option jstring) (project_suffix : jstring)
    (e : entity) (payload : json) : Http.request :=
  {| Http.url := configured_base API_BASE ++ Route.suffix project_suffix e;
     Http.method := js "POST";
     Http.headers := [ (js "Content-Type", js "application/json");
                       (js "Accept", js "application/json") ];
     Http.body := Some (reserialise payload);
     Http.cache := Some (js "no-store") |}.

(** What a route answers to an upstream answer it can relay: the status, and
    the JSON body written again, [{}] for a body that is not JSON. *)
Definition relayed (answer : Http.response) : Route.NextResponse :=
  {| Route.status := Http.status answer;
     Route.body := reserialise (match Http.jsonBody answer with
                                | Some data => data
                                | None => JObj []
                                end) |}.




Definition upstream_no_content : Http.request -> Http.outcome :=
  fun _ => Http.Resolves {| Http.status := 204; Http.jsonBody := None |}.

(** A department with a short name and an address of its own. *)
Definition electronics : DepartmentDetail :=
  {| uuid := Some (js "dep-2"); name := js "Electronics and Computer";
     shortName := Some (js "DoECE"); email := Some (js "ece@tcioe.edu.np") |}.


(* ================================================================== *)
(** ** The OTP handlers and the buttons of the three forms *)

Definition submittedByName (e : entity) : values_of e -> jstring :=
  match e with
  | project => Project.submittedByName
  | research => Research.submittedByName
  | journal => Journal.submittedByName
  end.

(** [otp.requestOtp({ email, fullName })] and [otp.verifyOtp({ email, code })] of
    the hook [useSubmissionOtp], which is not among the sources: each is a
    parameter, taking its two strings and the session, and giving the session it
    leaves and what it threw, if it threw. *)
Record OtpHook : Type := {
  requestOtp : jstring -> jstring -> Otp.session
               -> Otp.session * option Http.thrown;
  verifyOtp : jstring -> jstring -> Otp.session
              -> Otp.session * option Http.thrown
}.

(** A call a handler made to the hook, with its arguments. *)
Inductive otp_call : Type :=
| RequestOtp (email fullName : jstring)
| VerifyOtp (email code : jstring).

Definition setOtp (V : Type) (s : Otp.session) (st : form V) : form V :=
  {| values := values st; otp := s; otpCode := otpCode st;
     isSubmitting := isSubmitting st; errors := errors st;
     toasts := toasts st; requests := requests st |}.

(** The texts of the toasts of [handleRequestOtp] and [handleVerifyOtp], which
    are the same functions in the three forms but for these literals. *)
Definition enter_name_and_email (e : entity) : jstring :=
  match e with
  | project => js "Enter your name and campus email first"
  | research => js "Enter your name and campus email"
  | journal => js "Enter your name and campus email"
  end.

Definition code_sent (e : entity) : jstring :=
  match e with
  | project => js "Verification code sent. Check your inbox."
  | research => js "Verification code sent"
  | journal => js "Verification code sent"
  end.

Definition unable_to_send (e : entity) : jstring :=
  match e with
  | project => js "Unable to send verification code"
  | research => js "Unable to send code"
  | journal => js "Unable to send code"
  end.

Definition enter_the_otp (e : entity) : jstring :=
  match e with
  | project => js "Enter the OTP from your email"
  | research => js "Enter the OTP received in your email"
  | journal => js "Enter the OTP from your inbox"
  end.

Definition email_verified (e : entity) : jstring :=
  match e with
  | project => js "Email verified successfully"
  | research => js "Email verified"
  | journal => js "Email verified"
  end.

Definition unable_to_verify : jstring := js "Unable to verify the code".

(** The toast after an awaited hook call: [success] when it returned, the message
    of a thrown [Error], [otherwise] for any other thrown value. *)
Definition settled (success otherwise : jstring) (thrown : option Http.thrown)
    : Toast :=
  match thrown with
  | None => plain_toast success
  | Some (Http.ErrorObject m) => destructive_toast m
  | Some Http.OtherValue => destructive_toast otherwise
  end.

(** [handleRequestOtp]: the state it leaves and the calls it made to the hook. *)
Definition handleRequestOtp (e : entity) (hook : OtpHook)
    (st : form (values_of e)) : form (values_of e) * list otp_call :=
  let submittedEmail := submittedByEmail e (values st) in
  let submittedName := submittedByName e (values st) in
  if negb (truthy_str submittedEmail) || negb (truthy_str submittedName)
  then (toast (destructive_toast (enter_name_and_email e)) st, [])
  else
    let '(session, thrown) :=
      requestOtp hook (trim submittedEmail) (trim submittedName) (otp st) in
    (toast (settled (code_sent e) (unable_to_send e) thrown) (setOtp session st),
     [RequestOtp (trim submittedEmail) (trim submittedName)]).

(** [handleVerifyOtp] *)
Definition handleVerifyOtp (e : entity) (hook : OtpHook)
    (st : form (values_of e)) : form (values_of e) * list otp_call :=
  let submittedEmail := submittedByEmail e (values st) in
  if negb (truthy_str (otpCode st))
  then (toast (destructive_toast (enter_the_otp e)) st, [])
  else
    let '(session, thrown) :=
      verifyOtp hook (trim submittedEmail) (trim (otpCode st)) (otp st) in
    (toast (settled (email_verified e) unable_to_verify thrown) (setOtp session st),
     [VerifyOtp (trim submittedEmail) (trim (otpCode st))]).

(** [disabled] of the "Send code" and "Verify" buttons; [otp.loading] and
    [otp.verifying] are flags of the hook. *)
Definition send_disabled (loading : bool) (e : entity)
    (st : form (values_of e)) : bool :=
  loading
  || negb (truthy_str (submittedByEmail e (values st)))
  || negb (truthy_str (submittedByName e (values st))).

Definition status_is_sent (s : Otp.status_t) : bool :=
  match s with Otp.sent => true | _ => false end.

Definition verify_disabled (verifying : bool) (e : entity)
    (st : form (values_of e)) : bool :=
  verifying
  || negb (status_is_sent (Otp.status (otp st)))
  || negb (truthy_str (otpCode st)).

(* ================================================================== *)
(** ** The rows of a payload *)

Definition row_of (e : entity) : Type :=
  match e with
  | project => Project.ProjectMemberForm
  | research => Research.ParticipantForm
  | journal => Journal.AuthorForm
  end.

Definition row_list (e : entity) : values_of e -> list (row_of e) :=
  match e with
  | project => Project.members
  | research => Research.participants
  | journal => Journal.authors
  end.

(** The template of a new row, as written in the [append(...)] call. *)
Definition blank_row (e : entity) : row_of e :=
  match e with
  | project => Project.blankMember
  | research => Research.blankParticipant
  | journal => Journal.blankAuthor
  end.

(** The object literal of one row, as the [map] of each [onSubmit] writes it. *)
Definition row_object (e : entity) (department : DepartmentDetail)
    : row_of e -> list (jstring * jsval) :=
  match e with
  | project => Project.member_object
  | research => Research.participant_object department
  | journal => Journal.author_object
  end.

(** The key of the rows in the payload. *)
Definition rows_key (e : entity) : string :=
  match e with
  | project => "members"
  | research => "participants"
  | journal => "authors"
  end.

(** The keys the [filter] of each [onSubmit] reads. *)
Definition identity_keys (e : entity) : list string :=
  match e with
  | project => ["full_name"; "roll_number"]%string
  | research => ["full_name"%string]
  | journal => ["given_name"%string]
  end.

(** The fields of a row written with [trim() || undefined]. *)
Definition optional_row_fields (e : entity)
    : list (string * (row_of e -> jstring)) :=
  match e with
  | project =>
      [ ("email"%string, Project.email); ("role"%string, Project.role) ]
  | research =>
      [ ("email"%string, Research.email); ("role"%string, Research.role) ]
  | journal =>
      [ ("family_name"%string, Journal.familyName);
        ("email"%string, Journal.email);
        ("affiliation"%string, Journal.affiliation);
        ("country"%string, Journal.country) ]
  end.

(** The array under [k] in the body of a request. *)
Definition sent_rows (k : string) (r : Http.request) : list json :=
  match sent k r with
  | Some (JArr items) => items
  | _ => []
  end.

(** A row of the body has a non-empty string under [k]. *)
Definition has_text (k : string) (row : json) : Prop :=
  exists s, get k row = Some (JStr s) /\ s <> [].

(* ================================================================== *)
(** ** A form behind its route *)

(** The path of each route file under [app/], which is the URL it serves. *)
Definition route_path (e : entity) : jstring :=
  match e with
  | project => js "/api/submissions/project"
  | research => js "/api/submissions/research"
  | journal => js "/api/submissions/journal"
  end.

(** The [fetch] of a form when its request reaches the route of [e]: the handler
    reads the body that was sent, and the browser reads the status and the JSON
    body of the [NextResponse]. *)
Definition served_by (e : entity) (API_BASE : option jstring)
    (upstream : Http.request -> Http.outcome) (project_suffix : jstring)
    (r : Http.request) : Http.outcome :=
  let run :=
    Route.POST API_BASE upstream project_suffix e
      {| Route.json_ := Http.body r |} in
  Http.Resolves
    {| Http.status := Route.status (Route.response run);
       Http.jsonBody := Some (Route.body (Route.response run)) |}.

(** The JSON document of a request that has one. *)
Definition document (r : Http.request) : json :=
  match Http.body r with
  | Some j => j
  | None => JNull
  end.

(** A journal form filled in, its only author's given name one space. *)
Definition blank_author_name : form (values_of journal) :=
  {| values :=
       {| Journal.title := js "Edge AI";
          Journal.genre := js "Original Article";
          Journal.abstract := js "...";
          Journal.keywords := []; Journal.discipline := [];
          Journal.year := js "2024"; Journal.volume := []; Journal.number := [];
          Journal.pages := js " 12-18 ";
          Journal.submittedByName := js "Sita";
          Journal.submittedByEmail := js "s@tcioe.edu.np";
          Journal.authors :=
            [ {| Journal.givenName := js " "; Journal.familyName := [];
                 Journal.email := []; Journal.affiliation := [];
                 Journal.country := [] |} ] |};
     otp := {| Otp.status := Otp.verified; Otp.sessionId := Some (js "sess-1");
               Otp.error := None |};
     otpCode := js "123456"; isSubmitting := false; errors := [];
     toasts := []; requests := [] |}.

(** The same form with its author named, and a code typed in while the session
    is [sent]. *)
Definition filled_journal : form (values_of journal) :=
  {| values :=
       {| Journal.title := js "Edge AI";
          Journal.genre := js "Original Article";
          Journal.abstract := js "...";
          Journal.keywords := []; Journal.discipline := [];
          Journal.year := js "2024"; Journal.volume := []; Journal.number := [];
          Journal.pages := js " 12-18 ";
          Journal.submittedByName := js " Sita ";
          Journal.submittedByEmail := js "s@tcioe.edu.np ";
          Journal.authors := [ram] |};
     otp := {| Otp.status := Otp.verified; Otp.sessionId := Some (js "sess-1");
               Otp.error := None |};
     otpCode := js " 123456"; isSubmitting := false; errors := [];
     toasts := []; requests := [] |}.

Definition code_typed : form (values_of journal) :=
  setOtp {| Otp.status := Otp.sent; Otp.sessionId := None; Otp.error := None |}
    filled_journal.

(** A hook whose backend accepts every request and every code. *)
Definition accepting_hook : OtpHook :=
  {| requestOtp := fun _ _ _ =>
       ({| Otp.status := Otp.sent; Otp.sessionId := None; Otp.error := None |},
        None);
     verifyOtp := fun _ _ _ =>
       ({| Otp.status := Otp.verified; Otp.sessionId := Some (js "sess-1");
           Otp.error := None |}, None) |}.

(** An upstream that cannot be reached, and one that refuses a duplicate. *)
Definition upstream_down : Http.request -> Http.outcome :=
  fun _ => Http.Rejects (Http.ErrorObject (js "connect ECONNREFUSED")).

(** The text of the toast of an accepted submission. *)
Definition submitted (e : entity) : jstring :=
  match e with
  | project => js "Project submitted for review"
  | research => js "Research submitted for departmental review"
  | journal => js "Journal article submitted"
  end.

(** What a payload literal writes for a field, by its treatment. *)
Definition literal (t : treatment) (s : jstring) : jsval :=
  match t with
  | Trimmed => or_undefined (trim s)
  | AsIs => or_undefined s
  | Numeric => nan_to_undefined (Number s)
  | AlwaysSent => VStr (trim s)
  end.

(** What the body holds under the key of a field that is not left out. *)
Definition written (t : treatment) (s : jstring) : json :=
  match t with
  | Trimmed => JStr (trim s)
  | AsIs => JStr s
  | Numeric =>
      match Number s with
      | Finite neg m e => JNum neg m e
      | _ => JNull
      end
  | AlwaysSent => JStr (trim s)
  end.

(** A row keeps its identifying field after trimming. *)
Definition keeps_identity (e : entity) : row_of e -> bool :=
  match e with
  | project => fun m =>
      truthy_str (trim (Project.fullName m))
      && truthy_str (trim (Project.rollNumber m))
  | research => fun p => truthy_str (trim (Research.fullName p))
  | journal => fun a => truthy_str (trim (Journal.givenName a))
  end.

(** The JSON object of one row. *)
Definition row_json (e : entity) (department : DepartmentDetail)
    (r : row_of e) : json :=
  JObj (defined_props stringify (row_object e department r)).

(** A member row with a name and a roll number, padded, and nothing else. *)
Definition padded_member : Project.ProjectMemberForm :=
  {| Project.fullName := js " Hari "; Project.rollNumber := js "078BCT001 ";
     Project.email := js "  "; Project.role := [] |}.

(** A journal form with a second author row left blank. *)
Definition second_author_blank : form (values_of journal) :=
  setValues (Journal.setAuthors [ram; Journal.blankAuthor] (values filled_journal))
    filled_journal.

(** An upstream that refuses with a [detail]. *)
Definition upstream_refuses : Http.request -> Http.outcome :=
  fun _ => Http.Resolves
    {| Http.status := 400;
       Http.jsonBody := Some (JObj [(js "detail", JStr (js "Duplicate title"))]) |}.

(** A line was written with [console.error]. *)
Definition logged (run : Route.run) : bool :=
  match Route.console run with
  | [] => false
  | _ :: _ => true
  end.

(* ================================================================== *)
(** ** The definitions at work *)

Example Number_examples :
  Number (js "") = Finite false 0 0
  /\ Number (js "  ") = Finite false 0 0
  /\ Number (js "abc") = NaN
  /\ Number (js "2024") = Finite false 2024 0
  /\ Number (js " 12.50 ") = Finite false 1250 (-2)
  /\ Number (js "-1.5e3") = Finite true 15 2
  /\ Number (js "0x1F") = Finite false 31 0
  /\ Number (js "-0x1F") = NaN
  /\ Number (js "1e") = NaN
  /\ Number (js ".") = NaN
  /\ Number (js "1e999") = Infinity false
  /\ Number (js "1e-999") = Finite false 0 0
  /\ Number (js "-Infinity") = Infinity true.
Proof. vm_compute. repeat split. Qed.

Example trim_examples :
  trim (js "  Ram ") = js "Ram"
  /\ trim (js "   ") = []
  /\ trim (js "a b") = js "a b"
  /\ trim [9; 160; 65; 8232] = [65].
Proof. vm_compute. repeat split. Qed.

Example stringify_example :
  stringify (VObj [ (js "a", or_undefined (trim (js " ")));
                    (js "b", nan_to_undefined (Number (js "x")));
                    (js "c", VNum (Number (js "Infinity")));
                    (js "d", VArr [VUndef; VStr (js "z")]) ])
  = Some (JObj [ (js "c", JNull); (js "d", JArr [JNull; JStr (js "z")]) ]).
Proof. reflexivity. Qed.

Example remove_example :
  remove 1 [10; 20; 30] = [10; 30]
  /\ on_click 0 (Remove 0) [10] = [10]
  /\ on_click 0 (Remove 5) [10; 20] = [10; 20]
  /\ clicks 0 [Add; Remove 0; Remove 0; Remove 0] [10] = [0].
Proof. repeat split. Qed.

(** The submit button on a journal form left blank: react-hook-form reports the
    required fields and [onSubmit] is not called. *)
Example blank_journal_is_not_submitted :
  let st' := submit journal computer no_digits offline (mounted journal) in
  List.map fst (errors st')
  = [ js "title"; js "genre"; js "abstract"; js "authors.0.givenName";
      js "submittedByName"; js "submittedByEmail" ]
  /\ toasts st' = []
  /\ requests st' = []
  /\ isSubmitting st' = false.
Proof. vm_compute. repeat split. Qed.

(** Scenario 10 of the spec, and bodies whose [detail] is empty or missing. *)
Example shown_message_examples :
  let answer body := Http.Resolves {| Http.status := 400; Http.jsonBody := body |} in
  shown_message journal no_digits
    (answer (Some (JObj [(js "detail", JStr (js "Duplicate title"))])))
  = js "Duplicate title"
  /\ shown_message journal no_digits
       (answer (Some (JObj [(js "detail", JStr []); (js "error", JStr (js "Bad"))])))
     = js "Bad"
  /\ shown_message project no_digits (answer None)
     = js "Failed to submit project"
  /\ shown_message research no_digits
       (answer (Some (JObj [(js "detail", JArr [JStr (js "a"); JNull; JStr (js "b")])])))
     = js "a,,b".
Proof. vm_compute. repeat split. Qed.

(* ================================================================== *)
(** ** Lemmas on strings and objects *)

Lemma str_eqb_refl (a : jstring) : str_eqb a a = true.
Proof.
  induction a as [|x a IH]; simpl; [reflexivity|].
  now rewrite N.eqb_refl, IH.
Qed.

Lemma str_eqb_eq (a b : jstring) : str_eqb a b = true <-> a = b.
Proof.
  split.
  - revert b; induction a as [|x a IH]; intros [|y b]; simpl; try discriminate.
    + reflexivity.
    + intros H. apply andb_true_iff in H as [Hx Hab].
      apply N.eqb_eq in Hx. now rewrite Hx, (IH _ Hab).
  - intros ->. apply str_eqb_refl.
Qed.

Lemma str_eqb_neq (a b : jstring) : a <> b -> str_eqb a b = false.
Proof.
  intros H. destruct (str_eqb a b) eqn:E; [|reflexivity].
  now apply str_eqb_eq in E.
Qed.

Section PropsLemmas.
Variables A B : Type.
Variable f : A -> option B.

Lemma assoc_unbound (k : jstring) (fs : list (jstring * A)) :
  bound k fs = false -> assoc k (defined_props f fs) = None.
Proof.
  induction fs as [|[k' x] fs IH]; simpl; [reflexivity|].
  intros H. apply orb_false_iff in H as [Hk Hb].
  destruct (f x); simpl; [rewrite Hk|]; auto.
Qed.

(** Reading a key of the written object: the property of the literal, if its
    value has a JSON text. *)
Lemma assoc_defined_props (k : jstring) (fs : list (jstring * A)) :
  unique_keys fs = true ->
  assoc k (defined_props f fs)
  = match assoc k fs with Some x => f x | None => None end.
Proof.
  induction fs as [|[k' x] fs IH]; simpl; [reflexivity|].
  intros H. apply andb_true_iff in H as [Hb Hu].
  apply negb_true_iff in Hb.
  destruct (str_eqb k k') eqn:E.
  - apply str_eqb_eq in E; subst k'.
    destruct (f x); simpl.
    + now rewrite str_eqb_refl.
    + now apply assoc_unbound.
  - destruct (f x); simpl; [rewrite E|]; auto.
Qed.
End PropsLemmas.

(** A key of the body that [JSON.stringify] writes for an object literal. *)
Lemma sent_object (k : string) (r : Http.request) (fs : list (jstring * jsval)) :
  Http.body r = stringify (VObj fs) ->
  unique_keys fs = true ->
  sent k r = match assoc (js k) fs with Some x => stringify x | None => None end.
Proof.
  intros Hb Hu. unfold sent. rewrite Hb. simpl.
  now apply assoc_defined_props.
Qed.

(* ================================================================== *)
(** ** The effect on the campus email; the guards of [onSubmit] *)

Lemma get_set_email (e : entity) (a : jstring) (v : values_of e) :
  submittedByEmail e (setSubmittedByEmail e a v) = a.
Proof. destruct e; reflexivity. Qed.

Lemma guard_unverified (s : Otp.session) :
  Otp.status s <> Otp.verified \/ present (Otp.sessionId s) = false ->
  negb (Otp.is_verified (Otp.status s)) || negb (present (Otp.sessionId s)) = true.
Proof.
  intros [H | H].
  - destruct (Otp.status s); simpl; try reflexivity. now elim H.
  - rewrite H. apply orb_true_r.
Qed.

Lemma onSubmit_unverified (e : entity) department NumberToString fetch
    (st : form (values_of e)) :
  Otp.status (otp st) <> Otp.verified \/ present (Otp.sessionId (otp st)) = false ->
  onSubmit e department NumberToString fetch st = toast verify_first st.
Proof.
  intros H. apply guard_unverified in H.
  destruct e; cbn [values_of] in st, H;
    cbv [onSubmit Project.onSubmit Research.onSubmit Journal.onSubmit];
    now rewrite H.
Qed.

(** C1. In each of the three forms, [onSubmit] under a session whose status is
    not [verified], or whose [sessionId] is missing or empty, issues no [fetch]
    call and answers with the destructive toast "Verify your campus email before
    submitting"; values, session and OTP-code input are as before.  The same
    holds of the submit button ([handleSubmit(onSubmit)]) as to the network. *)
Theorem unverified_submit_is_refused (e : entity) (department : DepartmentDetail)
    (NumberToString : bool -> N -> Z -> jstring)
    (fetch : Http.request -> Http.outcome) (st : form (values_of e)) :
  Otp.status (otp st) <> Otp.verified \/ present (Otp.sessionId (otp st)) = false ->
  let st' := onSubmit e department NumberToString fetch st in
  requests st' = requests st
  /\ toasts st' = toasts st ++ [verify_first]
  /\ values st' = values st
  /\ otp st' = otp st
  /\ otpCode st' = otpCode st
  /\ requests (submit e department NumberToString fetch st) = requests st.
Proof.
  intros H st'. subst st'.
  rewrite (onSubmit_unverified e department NumberToString fetch st H).
  repeat split.
  unfold submit, handleSubmit.
  destruct (violations _); [|reflexivity].
  rewrite onSubmit_unverified by exact H. reflexivity.
Qed.

Lemma unverified_submit_is_refused_witness :
  (Otp.status (otp (mounted journal)) <> Otp.verified
   \/ present (Otp.sessionId (otp (mounted journal))) = false)
  /\ requests (onSubmit journal computer no_digits created (mounted journal)) = []
  /\ toasts (onSubmit journal computer no_digits created (mounted journal))
     = [verify_first].
Proof.
  assert (H : Otp.status (otp (mounted journal)) <> Otp.verified
              \/ present (Otp.sessionId (otp (mounted journal))) = false)
    by (right; reflexivity).
  split; [exact H|].
  destruct (unverified_submit_is_refused journal computer no_digits created
              (mounted journal) H) as (Hr & Ht & _).
  split; assumption.
Defined.

(** C4. In each of the three forms and for every session (idle, sending, sent,
    verifying, verified or error), an edit that changes the campus email leaves the
    session idle with neither [sessionId] nor [error], and an empty OTP-code
    input. *)
Theorem email_change_resets_session (e : entity) (st : form (values_of e))
    (address : jstring) :
  submittedByEmail e (values st) <> address ->
  let st' := editEmail e address st in
  Otp.status (otp st') = Otp.idle
  /\ Otp.sessionId (otp st') = None
  /\ Otp.error (otp st') = None
  /\ otpCode st' = []
  /\ submittedByEmail e (values st') = address.
Proof.
  intros H st'. subst st'. unfold editEmail, changeEmail.
  rewrite (str_eqb_neq H). simpl.
  repeat split. apply get_set_email.
Qed.

Lemma email_change_resets_session_witness :
  submittedByEmail research (values (just_verified research)) <> js "a@tcioe.edu.np"
  /\ otp (editEmail research (js "a@tcioe.edu.np") (just_verified research))
     = idle_session
  /\ otpCode (editEmail research (js "a@tcioe.edu.np") (just_verified research))
     = [].
Proof.
  assert (H : submittedByEmail research (values (just_verified research))
              <> js "a@tcioe.edu.np") by discriminate.
  split; [exact H|].
  destruct (email_change_resets_session research (just_verified research) H)
    as (_ & _ & _ & Hc & _).
  split; [reflexivity | exact Hc].
Defined.

(* ================================================================== *)
(** ** The rows of the sub-entity block *)

Section RowsLemmas.
Variable T : Type.
Implicit Type l : list T.

Lemma nth_error_remove (index : nat) l (j : nat) :
  nth_error (remove index l) j
  = nth_error l (if (j <? index)%nat then j else S j).
Proof.
  unfold remove. revert index j.
  induction l as [|x l IH]; intros index j.
  - rewrite firstn_nil, skipn_nil. simpl.
    destruct (j <? index)%nat; destruct j; reflexivity.
  - destruct index as [|i]; [reflexivity|].
    destruct j as [|j]; [reflexivity|].
    change (S j <? S i)%nat with (j <? i)%nat.
    change (firstn (S i) (x :: l) ++ skipn (S (S i)) (x :: l))
      with (x :: (firstn i l ++ skipn (S i) l)).
    change (nth_error (x :: (firstn i l ++ skipn (S i) l)) (S j))
      with (nth_error (firstn i l ++ skipn (S i) l) j).
    rewrite (IH i j).
    destruct (j <? i)%nat; reflexivity.
Qed.

Lemma length_remove (index : nat) l :
  (index < List.length l)%nat ->
  List.length (remove index l) = Nat.pred (List.length l).
Proof.
  intros H. unfold remove.
  rewrite length_app, length_firstn, length_skipn. lia.
Qed.

Lemma length_on_click (template : T) (c : click) l :
  List.length (on_click template c l)
  = match c with
    | Add => S (List.length l)
    | Remove index =>
        if (1 <? List.length l)%nat && (index <? List.length l)%nat
        then Nat.pred (List.length l)
        else List.length l
    end.
Proof.
  destruct c as [|index]; simpl.
  - unfold append. rewrite length_app. simpl. lia.
  - destruct (1 <? List.length l)%nat eqn:E1; simpl; [|reflexivity].
    destruct (index <? List.length l)%nat eqn:E2; [|reflexivity].
    apply length_remove. now apply Nat.ltb_lt.
Qed.

Lemma on_click_keeps_one (template : T) (c : click) l :
  (1 <= List.length l)%nat -> (1 <= List.length (on_click template c l))%nat.
Proof.
  intros H. rewrite length_on_click. destruct c as [|index]; [lia|].
  destruct (1 <? List.length l)%nat eqn:E1; simpl; [|exact H].
  apply Nat.ltb_lt in E1.
  destruct (index <? List.length l)%nat; lia.
Qed.
End RowsLemmas.

Lemma rows_rowClick (e : entity) (c : click) (v : values_of e) :
  rows e (rowClick e c v)
  = match c with
    | Add => S (rows e v)
    | Remove index =>
        if (1 <? rows e v)%nat && (index <? rows e v)%nat
        then Nat.pred (rows e v)
        else rows e v
    end.
Proof.
  destruct e; simpl; apply length_on_click.
Qed.

Lemma rowClick_keeps_one (e : entity) (c : click) (v : values_of e) :
  (1 <= rows e v)%nat -> (1 <= rows e (rowClick e c v))%nat.
Proof.
  destruct e; simpl; apply on_click_keeps_one.
Qed.

Lemma rowClicks_keep_one (e : entity) (cs : list click) (v : values_of e) :
  (1 <= rows e v)%nat -> (1 <= rows e (rowClicks e cs v))%nat.
Proof.
  unfold rowClicks. revert v.
  induction cs as [|c cs IH]; intros v H; simpl; [exact H|].
  apply IH. now apply rowClick_keeps_one.
Qed.

Lemma row_list_rowClick (e : entity) (c : click) (v : values_of e) :
  row_list e (rowClick e c v) = on_click (blank_row e) c (row_list e v).
Proof. destruct e; reflexivity. Qed.

Lemma rows_row_list (e : entity) (v : values_of e) :
  rows e v = List.length (row_list e v).
Proof. destruct e; reflexivity. Qed.

(** C5. In each of the three forms, after any sequence of clicks on "Add" and on
    the "Remove" buttons, starting from the default values, the block has at least
    one row.  A click on the "Remove" of row [index] takes that row away when
    there are at least two rows (the button exists only then) and otherwise
    changes no row; the rows that stay are the former rows in their former order:
    row [j] is the former row [j] before [index], the former row [j + 1] from
    [index] on.  "Add" puts the blank row of the form at the end and leaves the
    rows before it as they are. *)
Theorem subentity_rows_never_empty :
  (forall (e : entity) (cs : list click),
      (1 <= rows e (rowClicks e cs (defaultValues e)))%nat)
  /\ (forall (e : entity) (index : nat) (v : values_of e),
         rows e (rowClick e (Remove index) v)
         = if (1 <? rows e v)%nat && (index <? rows e v)%nat
           then Nat.pred (rows e v) else rows e v)
  /\ (forall (e : entity) (v : values_of e),
         rows e (rowClick e Add v) = S (rows e v))
  /\ (forall (e : entity) (index : nat) (v : values_of e) (j : nat),
         nth_error (row_list e (rowClick e (Remove index) v)) j
         = nth_error (row_list e v)
             (if (1 <? rows e v)%nat && (index <? rows e v)%nat
              then (if (j <? index)%nat then j else S j)
              else j))
  /\ (forall (e : entity) (v : values_of e),
         row_list e (rowClick e Add v) = row_list e v ++ [blank_row e])
  /\ (forall (T : Type) (l : list T) (index j : nat),
         nth_error (remove index l) j
         = nth_error l (if (j <? index)%nat then j else S j)).
Proof.
  repeat split.
  - intros e cs. apply rowClicks_keep_one. destruct e; simpl; lia.
  - intros e index v. apply (rows_rowClick e (Remove index) v).
  - intros e v. apply (rows_rowClick e Add v).
  - intros e index v j. rewrite row_list_rowClick, rows_row_list.
    cbn [on_click].
    destruct ((1 <? List.length (row_list e v))%nat
              && (index <? List.length (row_list e v))%nat);
      [apply nth_error_remove | reflexivity].
  - intros e v. apply (row_list_rowClick e Add v).
  - intros T l index j. apply nth_error_remove.
Qed.

(* ================================================================== *)
(** ** After the [fetch] call *)

Lemma ready_guard (e : entity) (st : form (values_of e)) :
  ready e st = true ->
  negb (Otp.is_verified (Otp.status (otp st)))
  || negb (present (Otp.sessionId (otp st))) = false.
Proof.
  unfold ready. intros H.
  apply andb_true_iff in H as [H _]. apply andb_true_iff in H as [Hv Hp].
  now rewrite Hv, Hp.
Qed.

Lemma ready_authors (st : form Journal.FormValues) :
  ready journal st = true ->
  (List.length (Journal.mapped_authors (values st)) =? 0)%nat = false.
Proof.
  unfold ready. intros H. apply andb_true_iff in H as [_ H].
  now apply negb_true_iff in H.
Qed.

Lemma ready_members (st : form Project.FormValues) :
  ready project st = true ->
  (List.length (Project.mapped_members (values st)) =? 0)%nat = false.
Proof.
  unfold ready. intros H. apply andb_true_iff in H as [_ H].
  now apply negb_true_iff in H.
Qed.

(** Past its guards, [onSubmit] depends on the state and on the answer to its one
    request only. *)
Ltac past_guards e st H :=
  let G := fresh "G" in
  pose proof (ready_guard e st H) as G;
  destruct e; cbn [values_of request defaultValues fallback] in *;
  cbv [onSubmit Project.onSubmit Research.onSubmit Journal.onSubmit];
  rewrite G;
  [ rewrite (ready_members st H) | | rewrite (ready_authors st H) ].

(** C6. In each of the three forms, when the guards of [onSubmit] pass and the
    call answers with a status from 200 to 299, the field values are the default
    values again, the session is idle with neither [sessionId] nor [error], and the
    OTP-code input is the empty string. *)
Theorem accepted_submission_resets_form (e : entity) (department : DepartmentDetail)
    (NumberToString : bool -> N -> Z -> jstring)
    (fetch : Http.request -> Http.outcome) (st : form (values_of e))
    (r : Http.response) :
  ready e st = true ->
  fetch (request e department (values st) (otp st)) = Http.Resolves r ->
  200 <= Http.status r <= 299 ->
  let st' := onSubmit e department NumberToString fetch st in
  values st' = defaultValues e
  /\ otp st' = idle_session
  /\ otpCode st' = []
  /\ requests st' = requests st ++ [request e department (values st) (otp st)].
Proof.
  intros H Hf [Hlo Hhi] st'. subst st'.
  assert (Hok : Http.ok r = true).
  { unfold Http.ok. apply andb_true_iff. split; now apply N.leb_le. }
  past_guards e st H; rewrite Hf, Hok; simpl; repeat split.
Qed.

Lemma accepted_submission_resets_form_witness :
  ready research (just_verified research) = true
  /\ values (onSubmit research computer no_digits created (just_verified research))
     = Research.defaultValues
  /\ otp (onSubmit research computer no_digits created (just_verified research))
     = idle_session
  /\ otpCode (onSubmit research computer no_digits created (just_verified research))
     = [].
Proof.
  assert (H : ready research (just_verified research) = true) by reflexivity.
  assert (Hs : 200 <= 201 <= 299) by lia.
  split; [exact H|].
  destruct (accepted_submission_resets_form research computer no_digits created
              (just_verified research) H eq_refl Hs)
    as (Hv & Ho & Hc & _).
  repeat split; assumption.
Defined.

Lemma ready_frame (e : entity) (st : form (values_of e))
    (es : list (jstring * jstring)) (b : bool) :
  ready e (setErrors es (setSubmitting b st)) = ready e st.
Proof. destruct e; reflexivity. Qed.

Lemma onSubmit_failed (e : entity) (department : DepartmentDetail)
    (NumberToString : bool -> N -> Z -> jstring)
    (fetch : Http.request -> Http.outcome) (st : form (values_of e)) :
  ready e st = true ->
  failed (fetch (request e department (values st) (otp st))) = true ->
  onSubmit e department NumberToString fetch st
  = toast (destructive_toast
             (shown_message e NumberToString
                (fetch (request e department (values st) (otp st)))))
      (sent_request (request e department (values st) (otp st)) st).
Proof.
  intros H Hf.
  past_guards e st H;
    match goal with
    | Hf : failed (fetch ?q) = true |- _ =>
        destruct (fetch q) as [r | [m |]]; simpl in Hf; try reflexivity;
        rewrite Hf; unfold shown_message, or_else; cbn [fallback];
        destruct (get "detail" (Http.json_or_empty r)) as [d|];
        [ destruct (truthy d) |];
        try reflexivity;
        destruct (get "error" (Http.json_or_empty r)) as [x|];
        [ destruct (truthy x) | | destruct (truthy x) | ];
        reflexivity
    end.
Qed.

(** C7, as stated, fails: when [fetch] throws (the browser's "Failed to fetch"),
    the toast shows the message of the thrown error, not the fallback of the
    form. *)
Lemma thrown_error_shows_its_own_message :
  ready journal edge_ai = true
  /\ failed (offline (request journal computer (values edge_ai) (otp edge_ai))) = true
  /\ toasts (onSubmit journal computer no_digits offline edge_ai)
     = [destructive_toast (js "Failed to fetch")]
  /\ destructive_toast (js "Failed to fetch")
     <> destructive_toast (message_without_body journal).
Proof.
  repeat split. discriminate.
Qed.

(** C7, amended. In each of the three forms, when the gateway call fails (a
    status outside 2xx, or [fetch] throws), session, field values and OTP-code
    input are as before, the one request is in the log, and [isSubmitting] is
    false again after the submit.  The destructive toast shows: for a thrown
    [Error], its own message; for an answer outside 2xx, the [detail] of the body
    if truthy, else its [error] if truthy, as strings; else the fallback of the
    form. *)
Theorem failed_submission_keeps_session_and_draft (e : entity)
    (department : DepartmentDetail)
    (NumberToString : bool -> N -> Z -> jstring)
    (fetch : Http.request -> Http.outcome) (st : form (values_of e)) :
  ready e st = true ->
  failed (fetch (request e department (values st) (otp st))) = true ->
  let st' := onSubmit e department NumberToString fetch st in
  let st'' := submit e department NumberToString fetch st in
  otp st' = otp st
  /\ values st' = values st
  /\ otpCode st' = otpCode st
  /\ requests st' = requests st ++ [request e department (values st) (otp st)]
  /\ toasts st' = toasts st
       ++ [destructive_toast
             (shown_message e NumberToString
                (fetch (request e department (values st) (otp st))))]
  /\ isSubmitting st'' = false
  /\ otp st'' = otp st
  /\ values st'' = values st
  /\ otpCode st'' = otpCode st.
Proof.
  intros H Hf st' st''. subst st' st''.
  rewrite (onSubmit_failed e department NumberToString fetch st H Hf).
  repeat split.
  all: unfold submit, handleSubmit;
    destruct (violations _); [|reflexivity];
    rewrite onSubmit_failed;
    [ reflexivity | now rewrite ready_frame | exact Hf ].
Qed.

Lemma failed_submission_keeps_session_and_draft_witness :
  ready journal edge_ai = true
  /\ failed (duplicate_title
               (request journal computer (values edge_ai) (otp edge_ai))) = true
  /\ otp (onSubmit journal computer no_digits duplicate_title edge_ai) = otp edge_ai
  /\ values (onSubmit journal computer no_digits duplicate_title edge_ai)
     = values edge_ai
  /\ toasts (onSubmit journal computer no_digits duplicate_title edge_ai)
     = [destructive_toast (js "Duplicate title")].
Proof.
  assert (H : ready journal edge_ai = true) by reflexivity.
  assert (Hf : failed (duplicate_title
                         (request journal computer (values edge_ai) (otp edge_ai)))
               = true) by reflexivity.
  destruct (failed_submission_keeps_session_and_draft journal computer
              no_digits duplicate_title edge_ai H Hf)
    as (Ho & Hv & _ & _ & Ht & _).
  repeat split; assumption.
Defined.

(* ================================================================== *)
(** ** The payload *)

Ltac read_key :=
  match goal with
  | |- sent ?k ?r = _ =>
      rewrite (sent_object k r (fs := _) eq_refl eq_refl);
      cbn [assoc str_eqb js List.map list_ascii_of_string N_of_ascii N_of_digits
           N.eqb Pos.eqb andb N.add N.mul Pos.add Pos.mul Pos.succ]
  end.

(** C8. The journal scenario of the spec: title "Edge AI", genre "Original
    Article", an abstract, one author with given name "Ram", every other field
    empty, session "sess-1" verified.  The body sent has [authors] and
    [otp_session] as the claim says and has neither [keywords] nor [discipline]
    nor [pages]; but [year], and [volume] and [number] with it, are sent as [0],
    since [Number("")] is [0] and not [NaN]. *)
Theorem journal_scenario_sends_year_zero :
  requests (onSubmit journal computer no_digits created edge_ai)
  = [request journal computer (values edge_ai) (otp edge_ai)]
  /\ Http.url (request journal computer (values edge_ai) (otp edge_ai))
     = js "/api/submissions/journal"
  /\ sent "authors" (request journal computer (values edge_ai) (otp edge_ai))
     = Some (JArr [JObj [(js "given_name", JStr (js "Ram"))]])
  /\ sent "otp_session" (request journal computer (values edge_ai) (otp edge_ai))
     = Some (JStr (js "sess-1"))
  /\ sent "keywords" (request journal computer (values edge_ai) (otp edge_ai)) = None
  /\ sent "discipline" (request journal computer (values edge_ai) (otp edge_ai)) = None
  /\ sent "pages" (request journal computer (values edge_ai) (otp edge_ai)) = None
  /\ sent "year" (request journal computer (values edge_ai) (otp edge_ai))
     = Some (JNum false 0 0)
  /\ sent "volume" (request journal computer (values edge_ai) (otp edge_ai))
     = Some (JNum false 0 0)
  /\ sent "number" (request journal computer (values edge_ai) (otp edge_ai))
     = Some (JNum false 0 0).
Proof.
  repeat split.
Qed.

(** C2, as stated, fails: the project form does not require an abstract, and one
    left empty is sent as the empty string; a start date of one space is sent as
    it is. *)
Lemma empty_optional_field_is_sent :
  (In ("abstract"%string, Project.abstract, AlwaysSent) (optional_fields project)
   /\ trim (Project.abstract Project.defaultValues) = []
   /\ sent "abstract" (request project computer Project.defaultValues idle_session)
      = Some (JStr []))
  /\ (In ("start_date"%string, Project.startDate, AsIs) (optional_fields project)
      /\ trim (Project.startDate blank_start_date) = []
      /\ sent "start_date" (request project computer blank_start_date idle_session)
         = Some (JStr (js " "))).
Proof.
  simpl. repeat split; try reflexivity.
  - left. reflexivity.
  - right. right. right. left. reflexivity.
Qed.

Lemma or_undefined_omitted (s : jstring) :
  truthy_str s = false -> stringify (or_undefined s) = None.
Proof. unfold or_undefined. now intros ->. Qed.

Lemma nan_to_undefined_omitted (x : jsnumber) :
  isNaN x = true -> stringify (nan_to_undefined x) = None.
Proof. unfold nan_to_undefined. now intros ->. Qed.

(** C2, amended. In each of the three payloads: a field normalised with
    [trim() || undefined] whose value is empty after trimming, a date field
    ([start_date], [end_date]: [|| undefined], not trimmed) whose value is the
    empty string, and a numeric field ([year], [volume], [number],
    [funding_amount]) whose value converts to [NaN], each leave their key out of
    the body that is sent; the abstract and the description of the project and
    research forms are always sent, trimmed. *)
Theorem empty_optional_fields_are_omitted (e : entity)
    (department : DepartmentDetail) (v : values_of e) (session : Otp.session)
    (k : string) (g : values_of e -> jstring) (t : treatment) :
  In (k, g, t) (optional_fields e) ->
  match t with
  | AlwaysSent =>
      sent k (request e department v session) = Some (JStr (trim (g v)))
  | _ =>
      omitted_when t (g v) = true ->
      sent k (request e department v session) = None
  end.
Proof.
  intros Hin.
  destruct e; cbn [optional_fields values_of request] in *;
    repeat (destruct Hin as [Hin | Hin];
            [ inversion Hin; subst k g t; clear Hin;
              cbn [omitted_when];
              try (intros Hom; try apply negb_true_iff in Hom);
              read_key;
              first [ reflexivity
                    | now apply or_undefined_omitted
                    | now apply nan_to_undefined_omitted ]
            | ]);
    destruct Hin.
Qed.

Lemma empty_optional_fields_are_omitted_witness :
  In ("funding_amount"%string, Research.fundingAmount, Numeric)
     (optional_fields research)
  /\ omitted_when Numeric (Research.fundingAmount funding_abc) = true
  /\ sent "funding_amount" (request research computer funding_abc idle_session)
     = None.
Proof.
  assert (Hin : In ("funding_amount"%string, Research.fundingAmount, Numeric)
                   (optional_fields research)).
  { simpl. do 5 right. left. reflexivity. }
  assert (Hom : omitted_when Numeric (Research.fundingAmount funding_abc) = true)
    by reflexivity.
  split; [exact Hin|]. split; [exact Hom|].
  exact (@empty_optional_fields_are_omitted research computer funding_abc
           idle_session "funding_amount" Research.fundingAmount Numeric Hin Hom).
Defined.

(* ================================================================== *)
(** ** The sub-entity guard *)

Lemma filter_map_length (A B : Type) (f : A -> B) (p : B -> bool) (l : list A) :
  List.length (List.filter p (List.map f l))
  = List.length (List.filter (fun x => p (f x)) l).
Proof.
  induction l as [|x l IH]; simpl; [reflexivity|].
  destruct (p (f x)); simpl; now rewrite IH.
Qed.

Lemma mapped_authors_identified (v : Journal.FormValues) :
  List.length (Journal.mapped_authors v) = identified journal v.
Proof. unfold Journal.mapped_authors. apply filter_map_length. Qed.

Lemma mapped_members_identified (v : Project.FormValues) :
  List.length (Project.mapped_members v) = identified project v.
Proof. unfold Project.mapped_members. apply filter_map_length. Qed.

Lemma mapped_participants_identified (d : DepartmentDetail) (v : Research.FormValues) :
  List.length (Research.mapped_participants d v) = identified research v.
Proof. unfold Research.mapped_participants. apply filter_map_length. Qed.

(** C3, as stated, fails for the research form: with no participant named, under
    a verified session, [onSubmit] shows no such toast and sends the request, with
    an empty [participants] list. *)
Lemma research_submits_without_participants :
  Otp.status (otp (just_verified research)) = Otp.verified
  /\ present (Otp.sessionId (otp (just_verified research))) = true
  /\ identified research (values (just_verified research)) = 0%nat
  /\ requests (onSubmit research computer no_digits created (just_verified research))
     = [request research computer (values (just_verified research))
          (otp (just_verified research))]
  /\ sent "participants"
       (request research computer (values (just_verified research))
          (otp (just_verified research)))
     = Some (JArr [])
  /\ toasts (onSubmit research computer no_digits created (just_verified research))
     = [plain_toast (js "Research submitted for departmental review")].
Proof.
  repeat split.
Qed.

(** C3, amended. Under a verified session, a submit in which no row keeps its
    identifying field after trimming: in the journal and project forms it issues no
    [fetch] call and answers with the destructive toast "Add at least one author" /
    "Add at least one team member", all else unchanged; in the research form,
    where participants are optional, it sends the request.  *)
Theorem submit_without_identified_rows (e : entity) (department : DepartmentDetail)
    (NumberToString : bool -> N -> Z -> jstring)
    (fetch : Http.request -> Http.outcome) (st : form (values_of e)) :
  Otp.status (otp st) = Otp.verified ->
  present (Otp.sessionId (otp st)) = true ->
  identified e (values st) = 0%nat ->
  let st' := onSubmit e department NumberToString fetch st in
  match e with
  | research =>
      requests st' = requests st ++ [request e department (values st) (otp st)]
  | _ =>
      requests st' = requests st
      /\ toasts st' = toasts st ++ [destructive_toast (at_least_one e)]
      /\ values st' = values st
      /\ otp st' = otp st
      /\ otpCode st' = otpCode st
  end.
Proof.
  intros Hv Hp Hz st'. subst st'.
  destruct e; cbn [values_of onSubmit request at_least_one] in *.
  - unfold Project.onSubmit.
    rewrite Hv, Hp, mapped_members_identified, Hz. repeat split.
  - unfold Research.onSubmit. rewrite Hv, Hp. simpl.
    destruct (fetch _) as [r | [m |]]; [destruct (Http.ok r) | |]; reflexivity.
  - unfold Journal.onSubmit.
    rewrite Hv, Hp, mapped_authors_identified, Hz. repeat split.
Qed.

Lemma submit_without_identified_rows_witness :
  (Otp.status (otp (just_verified journal)) = Otp.verified
   /\ present (Otp.sessionId (otp (just_verified journal))) = true
   /\ identified journal (values (just_verified journal)) = 0%nat)
  /\ requests (onSubmit journal computer no_digits created (just_verified journal))
     = []
  /\ toasts (onSubmit journal computer no_digits created (just_verified journal))
     = [destructive_toast (js "Add at least one author")].
Proof.
  split; [repeat split|].
  destruct (submit_without_identified_rows journal computer no_digits created
              (just_verified journal) eq_refl eq_refl eq_refl)
    as (Hr & Ht & _).
  split; assumption.
Defined.

(* ================================================================== *)
(** ** The proxy routes *)

Lemma POST_run (API_BASE : option jstring)
    (fetch : Http.request -> Http.outcome) (project_suffix : jstring)
    (e : entity) (request : Route.NextRequest) :
  Route.POST API_BASE fetch project_suffix e request
  = match Route.json_ request with
    | None =>
        {| Route.response := unable e; Route.upstream := [];
           Route.console := match e with
                            | project => []
                            | research => [js "research submission failed"]
                            | journal => [js "journal submission failed"]
                            end |}
    | Some payload =>
        let call := forwarded API_BASE project_suffix e payload in
        match fetch call with
        | Http.Resolves answer =>
            if Route.accepts_body (Http.status answer)
            then {| Route.response := relayed answer; Route.upstream := [call];
                    Route.console := [] |}
            else {| Route.response := unable e; Route.upstream := [call];
                    Route.console :=
                      match e with
                      | project => []
                      | research => [js "research submission failed"]
                      | journal => [js "journal submission failed"]
                      end |}
        | Http.Rejects _ =>
            {| Route.response := unable e; Route.upstream := [call];
               Route.console := match e with
                                | project => []
                                | research => [js "research submission failed"]
                                | journal => [js "journal submission failed"]
                                end |}
        end
    end.
Proof.
  assert (Hb : Route.API_BASE_URL API_BASE = configured_base API_BASE).
  { unfold Route.API_BASE_URL, or_string, configured_base.
    destruct API_BASE as [[|c rest]|]; reflexivity. }
  destruct e; cbn [Route.POST];
    [ unfold Route.POST_project | unfold Route.POST_research
    | unfold Route.POST_journal ];
    (destruct (Route.json_ request) as [payload|]; [|reflexivity]);
    unfold forwarded, Route.upstream_headers, Route.NextResponse_json, relayed,
      Http.json_or_empty;
    cbn [Route.suffix]; cbn zeta; rewrite Hb;
    match goal with
    | |- context [fetch ?q] => destruct (fetch q) as [answer | thrown]
    end; try reflexivity;
    destruct (Route.accepts_body (Http.status answer)); reflexivity.
Qed.




(* ================================================================== *)
(** ** The department of a payload *)

Lemma sent_department (e : entity) (d : DepartmentDetail) (v : values_of e)
    (session : Otp.session) :
  sent "department" (request e d v session) = stringify (opt_str (uuid d)).
Proof.
  destruct e; cbn [values_of request] in *; read_key; reflexivity.
Qed.

Lemma onSubmit_requests (e : entity) (d : DepartmentDetail)
    (NumberToString : bool -> N -> Z -> jstring)
    (fetch : Http.request -> Http.outcome) (st : form (values_of e)) :
  let st' := onSubmit e d NumberToString fetch st in
  requests st' = requests st
  \/ requests st' = requests st ++ [request e d (values st) (otp st)].
Proof.
  destruct e; cbn [values_of onSubmit request] in *;
    cbv [Project.onSubmit Research.onSubmit Journal.onSubmit];
    (destruct (negb _ || negb _); [left; reflexivity|]);
    try (destruct (_ =? _)%nat; [left; reflexivity|]);
    right;
    (destruct (fetch _) as [r | [m |]]; [destruct (negb (Http.ok r)) | |]);
    reflexivity.
Qed.

(** C10. [DepartmentSubmissionSection] renders nothing when [department] is
    missing, or its [uuid] is missing or empty.  Otherwise it renders the three
    forms, each with that [department]; every request such a form sends is the
    one built from its values, and the body of that request has the [uuid] under
    [department]. *)
Theorem forms_mount_only_with_department (department : option DepartmentDetail) :
  match department with
  | None => DepartmentSubmissionSection department = None
  | Some d =>
      match uuid d with
      | None => DepartmentSubmissionSection department = None
      | Some u =>
          if truthy_str u then
            exists view,
              DepartmentSubmissionSection department = Some view
              /\ tabs view = [(project, d); (research, d); (journal, d)]
              /\ (forall (e : entity) (v : values_of e) (session : Otp.session),
                     sent "department" (request e d v session) = Some (JStr u))
              /\ (forall (e : entity) NumberToString fetch (st : form (values_of e)),
                     let st' := onSubmit e d NumberToString fetch st in
                     requests st' = requests st
                     \/ requests st'
                        = requests st ++ [request e d (values st) (otp st)])
          else DepartmentSubmissionSection department = None
      end
  end.
Proof.
  destruct department as [d|]; [|reflexivity].
  unfold DepartmentSubmissionSection, present.
  destruct (uuid d) as [u|] eqn:Hu; [|reflexivity].
  destruct (truthy_str u); [|reflexivity].
  eexists. split; [reflexivity|]. split; [reflexivity|]. split.
  - intros e v session. rewrite sent_department, Hu. reflexivity.
  - intros e NumberToString fetch st. apply onSubmit_requests.
Qed.

(* ================================================================== *)
(** ** The OTP handlers *)

(** X1. [handleRequestOtp] with an empty campus email or an empty name makes no
    call to the hook: it shows the destructive toast of the form and leaves the
    session, the values, the OTP code and the network log as they are. *)
Theorem request_otp_needs_name_and_email (e : entity) (hook : OtpHook)
    (st : form (values_of e)) :
  submittedByEmail e (values st) = [] \/ submittedByName e (values st) = [] ->
  snd (handleRequestOtp e hook st) = []
  /\ fst (handleRequestOtp e hook st)
     = toast (destructive_toast (enter_name_and_email e)) st.
Proof.
  intros H. unfold handleRequestOtp.
  assert (G : negb (truthy_str (submittedByEmail e (values st)))
              || negb (truthy_str (submittedByName e (values st))) = true).
  { destruct H as [H | H]; rewrite H; simpl; [reflexivity | apply orb_true_r]. }
  rewrite G. split; reflexivity.
Qed.

Lemma request_otp_needs_name_and_email_witness :
  (submittedByEmail journal (values (mounted journal)) = []
   \/ submittedByName journal (values (mounted journal)) = [])
  /\ snd (handleRequestOtp journal accepting_hook (mounted journal)) = []
  /\ otp (fst (handleRequestOtp journal accepting_hook (mounted journal)))
     = otp (mounted journal).
Proof.
  assert (H : submittedByEmail journal (values (mounted journal)) = []
              \/ submittedByName journal (values (mounted journal)) = [])
    by (left; reflexivity).
  split; [exact H|].
  destruct (request_otp_needs_name_and_email journal accepting_hook
              (mounted journal) H) as (Hc & Hs).
  split; [exact Hc | now rewrite Hs].
Defined.

(** X2. While the "Send code" button is enabled, a click calls
    [otp.requestOtp] exactly once, with the email and the name trimmed (so a name
    of white space only reaches the hook as the empty string); the session is the
    one the hook leaves, and the values, the OTP code and the network log are as
    before. *)
Theorem send_button_reaches_hook (loading : bool) (e : entity) (hook : OtpHook)
    (st : form (values_of e)) :
  send_disabled loading e st = false ->
  let email := trim (submittedByEmail e (values st)) in
  let fullName := trim (submittedByName e (values st)) in
  let st' := fst (handleRequestOtp e hook st) in
  snd (handleRequestOtp e hook st) = [RequestOtp email fullName]
  /\ otp st' = fst (requestOtp hook email fullName (otp st))
  /\ toasts st'
     = toasts st ++ [settled (code_sent e) (unable_to_send e)
                       (snd (requestOtp hook email fullName (otp st)))]
  /\ values st' = values st
  /\ otpCode st' = otpCode st
  /\ requests st' = requests st.
Proof.
  intros H email fullName st'. subst email fullName st'.
  unfold send_disabled in H.
  apply orb_false_iff in H as [H Hn]. apply orb_false_iff in H as [_ He].
  unfold handleRequestOtp. rewrite He, Hn. cbn [orb].
  destruct (requestOtp hook _ _ _) as [session thrown].
  repeat split.
Qed.

Lemma send_button_reaches_hook_witness :
  send_disabled false journal filled_journal = false
  /\ snd (handleRequestOtp journal accepting_hook filled_journal)
     = [RequestOtp (js "s@tcioe.edu.np") (js "Sita")].
Proof.
  assert (H : send_disabled false journal filled_journal = false) by reflexivity.
  split; [exact H|].
  destruct (send_button_reaches_hook false journal accepting_hook filled_journal H)
    as (Hc & _).
  exact Hc.
Defined.

(** X3. [handleVerifyOtp] with an empty OTP-code input makes no call to the
    hook: it shows the destructive toast of the form and changes nothing else. *)
Theorem verify_otp_needs_code (e : entity) (hook : OtpHook)
    (st : form (values_of e)) :
  otpCode st = [] ->
  snd (handleVerifyOtp e hook st) = []
  /\ fst (handleVerifyOtp e hook st)
     = toast (destructive_toast (enter_the_otp e)) st.
Proof.
  intros H. unfold handleVerifyOtp. rewrite H. split; reflexivity.
Qed.

Lemma verify_otp_needs_code_witness :
  otpCode (mounted project) = []
  /\ snd (handleVerifyOtp project accepting_hook (mounted project)) = []
  /\ toasts (fst (handleVerifyOtp project accepting_hook (mounted project)))
     = [destructive_toast (js "Enter the OTP from your email")].
Proof.
  assert (H : otpCode (mounted project) = []) by reflexivity.
  split; [exact H|].
  destruct (verify_otp_needs_code project accepting_hook (mounted project) H)
    as (Hc & Hs).
  split; [exact Hc | now rewrite Hs].
Defined.

(** X4. While the "Verify" button is enabled (the session is [sent], a code is
    typed in, no verification is running), a click calls [otp.verifyOtp] exactly
    once, with the email and the code trimmed; the session is the one the hook
    leaves, and the values, the OTP code and the network log are as before. *)
Theorem verify_button_reaches_hook (verifying : bool) (e : entity)
    (hook : OtpHook) (st : form (values_of e)) :
  verify_disabled verifying e st = false ->
  let email := trim (submittedByEmail e (values st)) in
  let code := trim (otpCode st) in
  let st' := fst (handleVerifyOtp e hook st) in
  Otp.status (otp st) = Otp.sent
  /\ snd (handleVerifyOtp e hook st) = [VerifyOtp email code]
  /\ otp st' = fst (verifyOtp hook email code (otp st))
  /\ toasts st'
     = toasts st ++ [settled (email_verified e) unable_to_verify
                       (snd (verifyOtp hook email code (otp st)))]
  /\ values st' = values st
  /\ otpCode st' = otpCode st
  /\ requests st' = requests st.
Proof.
  intros H email code st'. subst email code st'.
  unfold verify_disabled in H.
  apply orb_false_iff in H as [H Hc]. apply orb_false_iff in H as [_ Hs].
  split.
  { destruct (Otp.status (otp st)); simpl in Hs; try discriminate Hs.
    reflexivity. }
  unfold handleVerifyOtp. rewrite Hc.
  destruct (verifyOtp hook _ _ _) as [session thrown].
  repeat split.
Qed.

Lemma verify_button_reaches_hook_witness :
  verify_disabled false journal code_typed = false
  /\ snd (handleVerifyOtp journal accepting_hook code_typed)
     = [VerifyOtp (js "s@tcioe.edu.np") (js "123456")]
  /\ Otp.status (otp (fst (handleVerifyOtp journal accepting_hook code_typed)))
     = Otp.verified.
Proof.
  assert (H : verify_disabled false journal code_typed = false) by reflexivity.
  split; [exact H|].
  destruct (verify_button_reaches_hook false journal accepting_hook code_typed H)
    as (_ & Hc & Ho & _).
  split; [exact Hc | now rewrite Ho].
Defined.

(* ================================================================== *)
(** ** One submit after another *)

Lemma ready_after_toast (e : entity) (st : form (values_of e)) (t : Toast)
    (r : Http.request) :
  ready e (toast t (sent_request r st)) = ready e st.
Proof. destruct e; reflexivity. Qed.

Lemma onSubmit_ready_requests (e : entity) (department : DepartmentDetail)
    (NumberToString : bool -> N -> Z -> jstring)
    (fetch : Http.request -> Http.outcome) (st : form (values_of e)) :
  ready e st = true ->
  requests (onSubmit e department NumberToString fetch st)
  = requests st ++ [request e department (values st) (otp st)].
Proof.
  intros H.
  past_guards e st H;
    (destruct (fetch _) as [r | [m |]]; [destruct (negb (Http.ok r)) | |]);
    reflexivity.
Qed.

Lemma onSubmit_accepted (e : entity) (department : DepartmentDetail)
    (NumberToString : bool -> N -> Z -> jstring)
    (fetch : Http.request -> Http.outcome) (st : form (values_of e))
    (r : Http.response) :
  ready e st = true ->
  fetch (request e department (values st) (otp st)) = Http.Resolves r ->
  Http.ok r = true ->
  onSubmit e department NumberToString fetch st
  = setOtpCode []
      (otp_reset
         (reset (defaultValues e)
            (toast (plain_toast (submitted e))
               (sent_request (request e department (values st) (otp st)) st)))).
Proof.
  intros H Hf Hok.
  past_guards e st H; rewrite Hf, Hok; reflexivity.
Qed.

(** X5. After an edit that changes the campus email, [onSubmit] is refused
    whatever the session was before the edit: no [fetch] call, and the toast
    "Verify your campus email before submitting". *)
Theorem submit_after_email_change_is_refused (e : entity)
    (department : DepartmentDetail) (NumberToString : bool -> N -> Z -> jstring)
    (fetch : Http.request -> Http.outcome) (st : form (values_of e))
    (address : jstring) :
  submittedByEmail e (values st) <> address ->
  let st' := onSubmit e department NumberToString fetch (editEmail e address st) in
  requests st' = requests st
  /\ toasts st' = toasts st ++ [verify_first]
  /\ submittedByEmail e (values st') = address.
Proof.
  intros H st'. subst st'.
  rewrite onSubmit_unverified.
  - unfold editEmail, changeEmail. rewrite (str_eqb_neq H).
    repeat split. apply get_set_email.
  - left. unfold editEmail, changeEmail. rewrite (str_eqb_neq H).
    discriminate.
Qed.

Lemma submit_after_email_change_is_refused_witness :
  submittedByEmail journal (values edge_ai) <> js "r@tcioe.edu.np"
  /\ requests (onSubmit journal computer no_digits created
                 (editEmail journal (js "r@tcioe.edu.np") edge_ai)) = []
  /\ toasts (onSubmit journal computer no_digits created
               (editEmail journal (js "r@tcioe.edu.np") edge_ai))
     = [verify_first].
Proof.
  assert (H : submittedByEmail journal (values edge_ai) <> js "r@tcioe.edu.np")
    by discriminate.
  split; [exact H|].
  destruct (submit_after_email_change_is_refused journal computer no_digits
              created edge_ai H) as (Hr & Ht & _).
  split; assumption.
Defined.

(** X6. After an accepted submission a second [onSubmit] is refused, whatever
    the network would answer: the log holds the one request of the first, and the
    second shows "Verify your campus email before submitting". *)
Theorem second_submit_after_success_is_refused (e : entity)
    (department : DepartmentDetail) (NumberToString : bool -> N -> Z -> jstring)
    (fetch fetch' : Http.request -> Http.outcome) (st : form (values_of e))
    (r : Http.response) :
  ready e st = true ->
  fetch (request e department (values st) (otp st)) = Http.Resolves r ->
  Http.ok r = true ->
  let st1 := onSubmit e department NumberToString fetch st in
  let st2 := onSubmit e department NumberToString fetch' st1 in
  requests st2 = requests st ++ [request e department (values st) (otp st)]
  /\ toasts st2 = toasts st ++ [plain_toast (submitted e); verify_first]
  /\ values st2 = defaultValues e.
Proof.
  intros H Hf Hok st1 st2. subst st2 st1.
  rewrite (onSubmit_accepted e department NumberToString fetch st H Hf Hok).
  rewrite onSubmit_unverified by (left; discriminate).
  simpl. rewrite <- app_assoc. repeat split.
Qed.

Lemma second_submit_after_success_is_refused_witness :
  ready journal edge_ai = true
  /\ Http.ok {| Http.status := 201; Http.jsonBody := Some (JObj []) |} = true
  /\ requests (onSubmit journal computer no_digits created
                 (onSubmit journal computer no_digits created edge_ai))
     = [request journal computer (values edge_ai) (otp edge_ai)]
  /\ toasts (onSubmit journal computer no_digits created
               (onSubmit journal computer no_digits created edge_ai))
     = [plain_toast (js "Journal article submitted"); verify_first].
Proof.
  assert (H : ready journal edge_ai = true) by reflexivity.
  assert (Hok : Http.ok {| Http.status := 201; Http.jsonBody := Some (JObj []) |}
                = true) by reflexivity.
  split; [exact H|]. split; [exact Hok|].
  destruct (second_submit_after_success_is_refused journal computer no_digits
              created created edge_ai H eq_refl Hok) as (Hr & Ht & _).
  split; assumption.
Defined.

(** X7. After a failed submission the same form can be submitted again at once:
    the guards still pass, and the second [onSubmit] sends the same request once
    more, whatever the network answers then. *)
Theorem retry_after_failure_sends_again (e : entity)
    (department : DepartmentDetail) (NumberToString : bool -> N -> Z -> jstring)
    (fetch fetch' : Http.request -> Http.outcome) (st : form (values_of e)) :
  ready e st = true ->
  failed (fetch (request e department (values st) (otp st))) = true ->
  let st1 := onSubmit e department NumberToString fetch st in
  let st2 := onSubmit e department NumberToString fetch' st1 in
  ready e st1 = true
  /\ request e department (values st1) (otp st1)
     = request e department (values st) (otp st)
  /\ requests st2
     = requests st ++ [request e department (values st) (otp st);
                       request e department (values st) (otp st)].
Proof.
  intros H Hf st1 st2. subst st2 st1.
  rewrite (onSubmit_failed e department NumberToString fetch st H Hf).
  assert (H1 : ready e
                 (toast (destructive_toast
                           (shown_message e NumberToString
                              (fetch (request e department (values st) (otp st)))))
                    (sent_request (request e department (values st) (otp st)) st))
               = true) by now rewrite ready_after_toast.
  split; [exact H1|]. split; [reflexivity|].
  rewrite (onSubmit_ready_requests e department NumberToString fetch' _ H1).
  simpl. now rewrite <- app_assoc.
Qed.

Lemma retry_after_failure_sends_again_witness :
  ready journal edge_ai = true
  /\ failed (offline (request journal computer (values edge_ai) (otp edge_ai)))
     = true
  /\ requests (onSubmit journal computer no_digits created
                 (onSubmit journal computer no_digits offline edge_ai))
     = [request journal computer (values edge_ai) (otp edge_ai);
        request journal computer (values edge_ai) (otp edge_ai)].
Proof.
  assert (H : ready journal edge_ai = true) by reflexivity.
  assert (Hf : failed (offline (request journal computer (values edge_ai)
                                  (otp edge_ai))) = true) by reflexivity.
  split; [exact H|]. split; [exact Hf|].
  destruct (retry_after_failure_sends_again journal computer no_digits
              offline created edge_ai H Hf) as (_ & _ & Hr).
  exact Hr.
Defined.

(* ================================================================== *)
(** ** What the body of a request holds *)

Lemma sent_optional_field (e : entity) (department : DepartmentDetail)
    (v : values_of e) (session : Otp.session)
    (k : string) (g : values_of e -> jstring) (t : treatment) :
  In (k, g, t) (optional_fields e) ->
  sent k (request e department v session) = stringify (literal t (g v)).
Proof.
  intros Hin.
  destruct e; cbn [optional_fields values_of request] in *;
    repeat (destruct Hin as [Hin | Hin];
            [ inversion Hin; subst k g t; clear Hin; read_key; reflexivity | ]);
    destruct Hin.
Qed.

Lemma sent_identity (e : entity) (department : DepartmentDetail)
    (v : values_of e) (session : Otp.session) :
  sent "otp_session" (request e department v session)
  = stringify (opt_str (Otp.sessionId session))
  /\ sent "submitted_by_email" (request e department v session)
     = Some (JStr (trim (submittedByEmail e v)))
  /\ sent "submitted_by_name" (request e department v session)
     = Some (JStr (trim (submittedByName e v))).
Proof.
  destruct e; cbn [values_of request] in *;
    (split; [|split]); read_key; reflexivity.
Qed.

(** X8. Every request a form sends carries, under [otp_session], the identifier
    of the verified session, which is not empty, and the name and the campus
    email of the submitter, trimmed. *)
Theorem sent_body_carries_session (e : entity) (department : DepartmentDetail)
    (NumberToString : bool -> N -> Z -> jstring)
    (fetch : Http.request -> Http.outcome) (st : form (values_of e)) :
  ready e st = true ->
  exists id sent_request,
    Otp.sessionId (otp st) = Some id
    /\ id <> []
    /\ requests (onSubmit e department NumberToString fetch st)
       = requests st ++ [sent_request]
    /\ Http.url sent_request = route_path e
    /\ sent "otp_session" sent_request = Some (JStr id)
    /\ sent "submitted_by_email" sent_request
       = Some (JStr (trim (submittedByEmail e (values st))))
    /\ sent "submitted_by_name" sent_request
       = Some (JStr (trim (submittedByName e (values st)))).
Proof.
  intros H.
  assert (Hp : present (Otp.sessionId (otp st)) = true).
  { unfold ready in H. apply andb_true_iff in H as [H _].
    now apply andb_true_iff in H as [_ H]. }
  destruct (Otp.sessionId (otp st)) as [id|] eqn:Hid; [|discriminate Hp].
  exists id, (request e department (values st) (otp st)).
  destruct (sent_identity e department (values st) (otp st)) as (Hs & He & Hn).
  rewrite Hid in Hs.
  repeat split; try assumption.
  - intros ->. discriminate Hp.
  - now apply onSubmit_ready_requests.
  - destruct e; reflexivity.
Qed.

Lemma sent_body_carries_session_witness :
  ready journal filled_journal = true
  /\ exists id sent_request,
       Otp.sessionId (otp filled_journal) = Some id
       /\ id <> []
       /\ requests (onSubmit journal computer no_digits created filled_journal)
          = requests filled_journal ++ [sent_request]
       /\ Http.url sent_request = route_path journal
       /\ sent "otp_session" sent_request = Some (JStr id)
       /\ sent "submitted_by_email" sent_request
          = Some (JStr (trim (submittedByEmail journal (values filled_journal))))
       /\ sent "submitted_by_name" sent_request
          = Some (JStr (trim (submittedByName journal (values filled_journal)))).
Proof.
  assert (H : ready journal filled_journal = true) by reflexivity.
  split; [exact H|].
  exact (sent_body_carries_session journal computer no_digits created
           filled_journal H).
Defined.

Lemma stringify_literal (t : treatment) (s : jstring) :
  omitted_when t s = false -> stringify (literal t s) = Some (written t s).
Proof.
  destruct t; cbn [omitted_when literal written]; intros H.
  - apply negb_false_iff in H. unfold or_undefined. now rewrite H.
  - apply negb_false_iff in H. unfold or_undefined. now rewrite H.
  - unfold nan_to_undefined. rewrite H. now destruct (Number s).
  - reflexivity.
Qed.

(** X9. An optional field that is not left out is sent under its key: a field
    written with [trim() || undefined] that is not empty after trimming, as its
    trimmed value; a date that is not the empty string, as it is; a numeric field
    whose value is a number, as that number ([null] when it is infinite); the
    abstract and the description of the project and research forms, trimmed. *)
Theorem filled_optional_fields_are_sent (e : entity)
    (department : DepartmentDetail) (v : values_of e) (session : Otp.session)
    (k : string) (g : values_of e -> jstring) (t : treatment) :
  In (k, g, t) (optional_fields e) ->
  omitted_when t (g v) = false ->
  sent k (request e department v session) = Some (written t (g v)).
Proof.
  intros Hin Hom.
  rewrite (sent_optional_field e department v session k g t Hin).
  now apply stringify_literal.
Qed.

Lemma filled_optional_fields_are_sent_witness :
  In ("pages"%string, Journal.pages, Trimmed) (optional_fields journal)
  /\ omitted_when Trimmed (Journal.pages (values filled_journal)) = false
  /\ sent "pages" (request journal computer (values filled_journal) idle_session)
     = Some (JStr (js "12-18")).
Proof.
  assert (Hin : In ("pages"%string, Journal.pages, Trimmed)
                   (optional_fields journal)).
  { simpl. do 5 right. left. reflexivity. }
  assert (Hom : omitted_when Trimmed (Journal.pages (values filled_journal))
                = false) by reflexivity.
  split; [exact Hin|]. split; [exact Hom|].
  exact (@filled_optional_fields_are_sent journal computer
           (values filled_journal) idle_session "pages" Journal.pages Trimmed
           Hin Hom).
Defined.

Lemma Number_blank (s : jstring) : trim s = [] -> Number s = Finite false 0 0.
Proof. unfold Number. now intros ->. Qed.

(** X10. A numeric field ([year], [volume], [number], [funding_amount]) that is
    empty, or white space only, is sent as the number [0]: [Number] of such a
    string is [0], which is not [NaN]. *)
Theorem blank_numeric_field_is_sent_as_zero (e : entity)
    (department : DepartmentDetail) (v : values_of e) (session : Otp.session)
    (k : string) (g : values_of e -> jstring) :
  In (k, g, Numeric) (optional_fields e) ->
  trim (g v) = [] ->
  sent k (request e department v session) = Some (JNum false 0 0).
Proof.
  intros Hin Hb.
  rewrite (sent_optional_field e department v session k g Numeric Hin).
  cbn [literal]. now rewrite (Number_blank _ Hb).
Qed.

Lemma blank_numeric_field_is_sent_as_zero_witness :
  In ("volume"%string, Journal.volume, Numeric) (optional_fields journal)
  /\ trim (Journal.volume (values filled_journal)) = []
  /\ sent "volume" (request journal computer (values filled_journal) idle_session)
     = Some (JNum false 0 0).
Proof.
  assert (Hin : In ("volume"%string, Journal.volume, Numeric)
                   (optional_fields journal)).
  { simpl. do 3 right. left. reflexivity. }
  assert (Hb : trim (Journal.volume (values filled_journal)) = [])
    by reflexivity.
  split; [exact Hin|]. split; [exact Hb|].
  exact (@blank_numeric_field_is_sent_as_zero journal computer
           (values filled_journal) idle_session "volume" Journal.volume Hin Hb).
Defined.

(* ================================================================== *)
(** ** The rows of the body *)

Lemma filter_map_swap (A B : Type) (f : A -> B) (p : B -> bool) (l : list A) :
  List.filter p (List.map f l) = List.map f (List.filter (fun x => p (f x)) l).
Proof.
  induction l as [|x l IH]; simpl; [reflexivity|].
  destruct (p (f x)); simpl; now rewrite IH.
Qed.

Lemma get_row_json (e : entity) (department : DepartmentDetail) (r : row_of e)
    (k : string) :
  get k (row_json e department r)
  = match assoc (js k) (row_object e department r) with
    | Some x => stringify x
    | None => None
    end.
Proof.
  unfold row_json. cbn [get].
  apply assoc_defined_props. destruct e; reflexivity.
Qed.

Lemma sent_rows_eq (e : entity) (department : DepartmentDetail)
    (v : values_of e) (session : Otp.session) :
  sent_rows (rows_key e) (request e department v session)
  = List.map (row_json e department)
      (List.filter (keeps_identity e) (row_list e v)).
Proof.
  unfold sent_rows.
  destruct e; cbn [values_of request rows_key row_list] in *.
  - rewrite (sent_object "members" (Project.request department v session)
               (fs := _) eq_refl eq_refl).
    cbn -[Project.mapped_members stringify].
    unfold Project.mapped_members. rewrite filter_map_swap.
    cbn [stringify]. rewrite !map_map. reflexivity.
  - rewrite (sent_object "participants"
               (Research.request department v session) (fs := _) eq_refl eq_refl).
    cbn -[Research.mapped_participants stringify].
    unfold Research.mapped_participants. rewrite filter_map_swap.
    cbn [stringify]. rewrite !map_map. reflexivity.
  - rewrite (sent_object "authors" (Journal.request department v session)
               (fs := _) eq_refl eq_refl).
    cbn -[Journal.mapped_authors stringify].
    unfold Journal.mapped_authors. rewrite filter_map_swap.
    cbn [stringify]. rewrite !map_map. reflexivity.
Qed.

Lemma truthy_str_nonempty (s : jstring) : truthy_str s = true -> s <> [].
Proof. destruct s; [discriminate | discriminate]. Qed.

(** X11. The rows of the body ([authors], [members], [participants]) are, in
    their order in the form, the objects of the rows that keep their identifying
    field after trimming, and no others; each of them has a non-empty string
    under that field ([given_name]; [full_name] and [roll_number];
    [full_name]). *)
Theorem sent_rows_are_the_identified_rows (e : entity)
    (department : DepartmentDetail) (v : values_of e) (session : Otp.session) :
  sent_rows (rows_key e) (request e department v session)
  = List.map (row_json e department)
      (List.filter (keeps_identity e) (row_list e v))
  /\ List.length (sent_rows (rows_key e) (request e department v session))
     = identified e v
  /\ Forall (fun row => Forall (fun k => has_text k row) (identity_keys e))
       (sent_rows (rows_key e) (request e department v session)).
Proof.
  rewrite sent_rows_eq. split; [reflexivity|]. split.
  - rewrite length_map. destruct e; reflexivity.
  - apply Forall_map, Forall_forall. intros r Hr.
    apply filter_In in Hr as [_ Hr].
    destruct e; cbn [identity_keys keeps_identity row_of] in *.
    + apply andb_true_iff in Hr as [Hf Hn].
      repeat constructor.
      * exists (trim (Project.fullName r)). split.
        -- rewrite get_row_json. reflexivity.
        -- now apply truthy_str_nonempty.
      * exists (trim (Project.rollNumber r)). split.
        -- rewrite get_row_json. reflexivity.
        -- now apply truthy_str_nonempty.
    + repeat constructor.
      exists (trim (Research.fullName r)). split.
      * rewrite get_row_json. reflexivity.
      * now apply truthy_str_nonempty.
    + repeat constructor.
      exists (trim (Journal.givenName r)). split.
      * rewrite get_row_json. reflexivity.
      * now apply truthy_str_nonempty.
Qed.

(** X12. In the object of a row, a field written with [trim() || undefined]
    (an author's family name, email, affiliation and country; a member's and a
    participant's email and role) is present, trimmed, when it is not empty after
    trimming, and absent otherwise. *)
Theorem row_field_is_trimmed_or_absent (e : entity)
    (department : DepartmentDetail) (r : row_of e)
    (k : string) (g : row_of e -> jstring) :
  In (k, g) (optional_row_fields e) ->
  get k (row_json e department r)
  = if truthy_str (trim (g r)) then Some (JStr (trim (g r))) else None.
Proof.
  intros Hin. rewrite get_row_json.
  destruct e; cbn [optional_row_fields row_of row_object] in *;
    repeat (destruct Hin as [Hin | Hin];
            [ inversion Hin; subst k g; clear Hin;
              cbn [assoc str_eqb js List.map list_ascii_of_string N_of_ascii
                   N_of_digits N.eqb Pos.eqb andb N.add N.mul Pos.add Pos.mul
                   Pos.succ Project.member_object Research.participant_object
                   Journal.author_object];
              unfold or_undefined;
              match goal with
              | |- context [truthy_str ?s] => destruct (truthy_str s)
              end; reflexivity
            | ]);
    destruct Hin.
Qed.

Lemma row_field_is_trimmed_or_absent_witness :
  In ("email"%string, Project.email) (optional_row_fields project)
  /\ get "email" (row_json project computer padded_member) = None
  /\ get "full_name" (row_json project computer padded_member)
     = Some (JStr (js "Hari")).
Proof.
  assert (Hin : In ("email"%string, Project.email) (optional_row_fields project))
    by (left; reflexivity).
  split; [exact Hin|]. split; [|reflexivity].
  exact (@row_field_is_trimmed_or_absent project computer padded_member
           "email" Project.email Hin).
Defined.

(* ================================================================== *)
(** ** The required fields *)

Lemma In_violations (rs : list rule) (r : rule) :
  In r rs -> value r = [] -> In (field r, message r) (violations rs).
Proof.
  intros Hin Hv. unfold violations.
  apply (in_map (fun r => (field r, message r))).
  apply filter_In. split; [exact Hin|]. now rewrite Hv.
Qed.

Lemma submit_blocked (e : entity) (department : DepartmentDetail)
    (NumberToString : bool -> N -> Z -> jstring)
    (fetch : Http.request -> Http.outcome) (st : form (values_of e))
    (x : jstring * jstring) :
  In x (violations (required e (values st))) ->
  submit e department NumberToString fetch st
  = setSubmitting false
      (setErrors (violations (required e (values st))) (setSubmitting true st)).
Proof.
  intros Hin. unfold submit, handleSubmit.
  change (values (setSubmitting true st)) with (values st).
  destruct (violations (required e (values st))); [destruct Hin | reflexivity].
Qed.

(** X13. The submit button on a form in which a field registered with
    [required] is empty does not reach [onSubmit]: no toast, no [fetch] call, the
    error of that field among [errors], [isSubmitting] false again, and values,
    session and OTP code as before. *)
Theorem empty_required_field_blocks_submit (e : entity)
    (department : DepartmentDetail) (NumberToString : bool -> N -> Z -> jstring)
    (fetch : Http.request -> Http.outcome) (st : form (values_of e)) (r : rule) :
  In r (required e (values st)) ->
  value r = [] ->
  let st' := submit e department NumberToString fetch st in
  In (field r, message r) (errors st')
  /\ requests st' = requests st
  /\ toasts st' = toasts st
  /\ isSubmitting st' = false
  /\ values st' = values st
  /\ otp st' = otp st
  /\ otpCode st' = otpCode st.
Proof.
  intros Hin Hv st'. subst st'.
  pose proof (In_violations _ _ Hin Hv) as Hx.
  rewrite (submit_blocked e department NumberToString fetch st _ Hx).
  repeat split. exact Hx.
Qed.

Lemma empty_required_field_blocks_submit_witness :
  In {| field := js "title"; value := []; message := js "Title is required" |}
     (required research (values (just_verified research)))
  /\ In (js "title", js "Title is required")
        (errors (submit research computer no_digits created
                   (just_verified research)))
  /\ requests (submit research computer no_digits created
                 (just_verified research)) = [].
Proof.
  assert (Hin : In {| field := js "title"; value := [];
                      message := js "Title is required" |}
                   (required research (values (just_verified research))))
    by (left; reflexivity).
  split; [exact Hin|].
  destruct (empty_required_field_blocks_submit research computer no_digits
              created (just_verified research) _ Hin eq_refl)
    as (He & Hr & _).
  split; assumption.
Defined.

Lemma flat_map_later_rows (A B : Type) (f : nat * A -> list B) (l : list A) :
  (forall i a, f (S i, a) = []) ->
  forall k, List.flat_map f (combine (seq (S k) (List.length l)) l) = [].
Proof.
  intros Hf. induction l as [|a l IH]; intros k; [reflexivity|].
  simpl. rewrite Hf. apply IH.
Qed.

(** X14. In the project form only the first member row is validated: the rules
    of [required] are the same whatever the rows after the first are, so a blank
    second row raises no error. *)
Theorem only_first_member_row_is_required (v : Project.FormValues)
    (first : Project.ProjectMemberForm)
    (others others' : list Project.ProjectMemberForm) :
  Project.required (Project.setMembers (first :: others) v)
  = Project.required (Project.setMembers (first :: others') v).
Proof.
  unfold Project.required, indexed. cbn [Project.members Project.setMembers
    Project.title Project.supervisorName Project.submittedByName
    Project.submittedByEmail List.length seq combine List.flat_map].
  rewrite !flat_map_later_rows by reflexivity.
  reflexivity.
Qed.

Lemma In_indexed (T : Type) (l : list T) (i : nat) (a : T) :
  nth_error l i = Some a -> In (i, a) (indexed l).
Proof.
  unfold indexed.
  assert (G : forall k, nth_error l i = Some a ->
                        In ((k + i)%nat, a) (combine (seq k (List.length l)) l)).
  { revert i. induction l as [|x l IH]; intros i k H.
    - destruct i; discriminate H.
    - destruct i as [|i]; simpl in H.
      + injection H as ->. left. now rewrite Nat.add_0_r.
      + right. simpl. rewrite <- Nat.add_succ_comm. now apply IH. }
  apply (G 0%nat).
Qed.

(** X15. In the journal form every author row counts: a row whose given name
    is empty, at whatever index, stops the submit with the error of the field
    [authors.<index>.givenName], and nothing is sent. *)
Theorem blank_given_name_blocks_submit (department : DepartmentDetail)
    (NumberToString : bool -> N -> Z -> jstring)
    (fetch : Http.request -> Http.outcome) (st : form (values_of journal))
    (index : nat) (author : Journal.AuthorForm) :
  nth_error (Journal.authors (values st)) index = Some author ->
  Journal.givenName author = [] ->
  let st' := submit journal department NumberToString fetch st in
  In (js ("authors." ++ decimal index ++ ".givenName"), js "Required")
     (errors st')
  /\ requests st' = requests st
  /\ toasts st' = toasts st.
Proof.
  intros Hn Hg st'. subst st'.
  assert (Hx : In (js ("authors." ++ decimal index ++ ".givenName"),
                   js "Required")
                  (violations (required journal (values st)))).
  { apply (In_violations _
             {| field := js ("authors." ++ decimal index ++ ".givenName");
                value := Journal.givenName author; message := js "Required" |});
      [|exact Hg].
    cbn [required]. unfold Journal.required.
    apply in_or_app. right. apply in_or_app. left.
    apply (in_map (fun '(index, author) =>
             {| field := js ("authors." ++ decimal index ++ ".givenName");
                value := Journal.givenName author; message := js "Required" |})
             _ (index, author)).
    now apply In_indexed. }
  rewrite (submit_blocked journal department NumberToString fetch st _ Hx).
  repeat split. exact Hx.
Qed.

Lemma blank_given_name_blocks_submit_witness :
  nth_error (Journal.authors (values second_author_blank)) 1
  = Some Journal.blankAuthor
  /\ Journal.givenName Journal.blankAuthor = []
  /\ In (js "authors.1.givenName", js "Required")
        (errors (submit journal computer no_digits created second_author_blank))
  /\ requests (submit journal computer no_digits created second_author_blank)
     = [].
Proof.
  split; [reflexivity|]. split; [reflexivity|].
  destruct (blank_given_name_blocks_submit computer no_digits created
              second_author_blank 1 eq_refl eq_refl) as (He & Hr & _).
  split; assumption.
Defined.

Lemma onSubmit_no_identified_rows (e : entity) (department : DepartmentDetail)
    (NumberToString : bool -> N -> Z -> jstring)
    (fetch : Http.request -> Http.outcome) (st : form (values_of e)) :
  e <> research ->
  Otp.status (otp st) = Otp.verified ->
  present (Otp.sessionId (otp st)) = true ->
  identified e (values st) = 0%nat ->
  onSubmit e department NumberToString fetch st
  = toast (destructive_toast (at_least_one e)) st.
Proof.
  intros Hne Hv Hp Hz.
  destruct e; [| now elim Hne |];
    cbn [values_of onSubmit at_least_one] in *.
  - unfold Project.onSubmit.
    now rewrite Hv, Hp, mapped_members_identified, Hz.
  - unfold Journal.onSubmit.
    now rewrite Hv, Hp, mapped_authors_identified, Hz.
Qed.

(** X16. White space is not empty for [required], but it is for the [filter] of
    [onSubmit]: in the journal and project forms, a submit that passes every
    [required] rule and has no row with an identifying field after trimming
    reaches [onSubmit] and stops at its guard: no field error, the toast "Add at
    least one ...", nothing sent. *)
Theorem blank_rows_pass_validation_but_not_the_guard (e : entity)
    (department : DepartmentDetail) (NumberToString : bool -> N -> Z -> jstring)
    (fetch : Http.request -> Http.outcome) (st : form (values_of e)) :
  e <> research ->
  violations (required e (values st)) = [] ->
  Otp.status (otp st) = Otp.verified ->
  present (Otp.sessionId (otp st)) = true ->
  identified e (values st) = 0%nat ->
  let st' := submit e department NumberToString fetch st in
  errors st' = []
  /\ toasts st' = toasts st ++ [destructive_toast (at_least_one e)]
  /\ requests st' = requests st
  /\ isSubmitting st' = false
  /\ values st' = values st.
Proof.
  intros Hne Hvi Hv Hp Hz st'. subst st'.
  unfold submit, handleSubmit.
  change (values (setSubmitting true st)) with (values st).
  rewrite Hvi.
  rewrite onSubmit_no_identified_rows; try assumption.
  repeat split.
Qed.

Lemma blank_rows_pass_validation_but_not_the_guard_witness :
  journal <> research
  /\ violations (required journal (values blank_author_name)) = []
  /\ identified journal (values blank_author_name) = 0%nat
  /\ errors (submit journal computer no_digits created blank_author_name) = []
  /\ toasts (submit journal computer no_digits created blank_author_name)
     = [destructive_toast (js "Add at least one author")]
  /\ requests (submit journal computer no_digits created blank_author_name) = [].
Proof.
  assert (Hne : journal <> research) by discriminate.
  assert (Hvi : violations (required journal (values blank_author_name)) = [])
    by reflexivity.
  assert (Hz : identified journal (values blank_author_name) = 0%nat)
    by reflexivity.
  split; [exact Hne|]. split; [exact Hvi|]. split; [exact Hz|].
  destruct (@blank_rows_pass_validation_but_not_the_guard journal computer
              no_digits created blank_author_name Hne Hvi eq_refl eq_refl Hz)
    as (He & Ht & Hr & _).
  repeat split; assumption.
Defined.

(* ================================================================== *)
(** ** Adding and removing rows *)

Lemma add_then_remove_last (T : Type) (template : T) (l : list T) :
  (1 <= List.length l)%nat ->
  on_click template (Remove (List.length l)) (on_click template Add l) = l.
Proof.
  intros H. cbn [on_click]. unfold append.
  rewrite length_app. cbn [List.length].
  assert (E1 : (1 <? List.length l + 1)%nat = true) by (apply Nat.ltb_lt; lia).
  assert (E2 : (List.length l <? List.length l + 1)%nat = true)
    by (apply Nat.ltb_lt; lia).
  rewrite E1, E2. cbn [andb]. unfold remove.
  rewrite firstn_app, Nat.sub_diag, firstn_all. cbn [firstn].
  rewrite skipn_all2 by (rewrite length_app; simpl; lia).
  now rewrite !app_nil_r.
Qed.

(** X17. "Add" followed by "Remove" on the row just added gives back the values
    as they were, provided there was a row before. *)
Theorem add_then_remove_restores_rows (e : entity) (v : values_of e) :
  (1 <= rows e v)%nat ->
  rowClick e (Remove (rows e v)) (rowClick e Add v) = v.
Proof.
  intros H.
  destruct e; destruct v; cbn [rows rowClick values_of] in *;
    cbn [Project.members Project.setMembers Research.participants
         Research.setParticipants Journal.authors Journal.setAuthors] in *;
    unfold Project.setMembers, Research.setParticipants, Journal.setAuthors;
    cbn [Project.members Research.participants Journal.authors
         Project.title Project.abstract Project.description Project.projectType
         Project.supervisorName Project.supervisorEmail Project.startDate
         Project.endDate Project.academicYear Project.githubUrl Project.demoUrl
         Project.technologiesUsed Project.submittedByName
         Project.submittedByEmail
         Research.title Research.abstract Research.description
         Research.researchType Research.status Research.principalInvestigator
         Research.piEmail Research.startDate Research.endDate
         Research.fundingAgency Research.fundingAmount Research.keywords
         Research.methodology Research.expectedOutcomes
         Research.publicationsUrl Research.projectUrl Research.githubUrl
         Research.submittedByName Research.submittedByEmail
         Journal.title Journal.genre Journal.abstract Journal.keywords
         Journal.discipline Journal.year Journal.volume Journal.number
         Journal.pages Journal.submittedByName Journal.submittedByEmail];
    now rewrite add_then_remove_last.
Qed.

Lemma add_then_remove_restores_rows_witness :
  (1 <= rows journal (values filled_journal))%nat
  /\ rowClick journal (Remove 1) (rowClick journal Add (values filled_journal))
     = values filled_journal.
Proof.
  assert (H : (1 <= rows journal (values filled_journal))%nat)
    by (simpl; lia).
  split; [exact H|].
  exact (add_then_remove_restores_rows journal (values filled_journal) H).
Defined.

Lemma rowClick_frame (e : entity) (c : click) (v : values_of e) :
  submittedByEmail e (rowClick e c v) = submittedByEmail e v
  /\ submittedByName e (rowClick e c v) = submittedByName e v
  /\ forall k g t, In (k, g, t) (optional_fields e) -> g (rowClick e c v) = g v.
Proof.
  destruct e; cbn [submittedByEmail submittedByName rowClick optional_fields];
    (split; [reflexivity|]); (split; [reflexivity|]);
    intros k g t Hin;
    repeat (destruct Hin as [Hin | Hin];
            [ inversion Hin; subst; reflexivity | ]);
    destruct Hin.
Qed.

(** X18. Clicks on "Add" and "Remove" change the rows only: after any sequence
    of them the campus email, the name of the submitter and every optional scalar
    field are as before (so the effect that watches the email does not run). *)
Theorem row_clicks_keep_the_other_fields (e : entity) (cs : list click)
    (v : values_of e) (k : string) (g : values_of e -> jstring) (t : treatment) :
  In (k, g, t) (optional_fields e) ->
  g (rowClicks e cs v) = g v
  /\ submittedByEmail e (rowClicks e cs v) = submittedByEmail e v
  /\ submittedByName e (rowClicks e cs v) = submittedByName e v.
Proof.
  intros Hin. unfold rowClicks. revert v.
  induction cs as [|c cs IH]; intros v; [repeat split|].
  cbn [fold_left].
  destruct (IH (rowClick e c v)) as (Hg & He & Hn).
  destruct (rowClick_frame e c v) as (He' & Hn' & Hg').
  rewrite Hg, He, Hn, He', Hn', (Hg' k g t Hin). repeat split.
Qed.

Lemma row_clicks_keep_the_other_fields_witness :
  In ("pages"%string, Journal.pages, Trimmed) (optional_fields journal)
  /\ Journal.pages (rowClicks journal [Add; Remove 0; Add]
                      (values filled_journal)) = js " 12-18 "
  /\ submittedByEmail journal
       (rowClicks journal [Add; Remove 0; Add] (values filled_journal))
     = js "s@tcioe.edu.np ".
Proof.
  assert (Hin : In ("pages"%string, Journal.pages, Trimmed)
                   (optional_fields journal)).
  { simpl. do 5 right. left. reflexivity. }
  split; [exact Hin|].
  destruct (@row_clicks_keep_the_other_fields journal [Add; Remove 0; Add]
              (values filled_journal) "pages" Journal.pages Trimmed Hin)
    as (Hg & He & _).
  split; assumption.
Defined.

(* ================================================================== *)
(** ** A form behind its route *)

Lemma request_has_document (e : entity) (department : DepartmentDetail)
    (v : values_of e) (session : Otp.session) :
  Http.body (request e department v session)
  = Some (document (request e department v session))
  /\ Http.url (request e department v session) = route_path e
  /\ Http.method (request e department v session) = js "POST".
Proof. destruct e; repeat split. Qed.


Lemma error_message_truthy (e : entity) : truthy_str (Route.error_message e) = true.
Proof. destruct e; reflexivity. Qed.

(** X19. A journal or research form behind its route, the upstream API out of
    reach: the route answers for it, and the form shows the message of the route
    ("Unable to submit journal article", "Unable to submit research") in a
    destructive toast, with values and session as before. *)
Theorem unreachable_upstream_shows_route_message (e : entity)
    (department : DepartmentDetail) (NumberToString : bool -> N -> Z -> jstring)
    (API_BASE : option jstring) (upstream : Http.request -> Http.outcome)
    (project_suffix : jstring) (st : form (values_of e)) (thrown : Http.thrown) :
  e <> project ->
  ready e st = true ->
  upstream (forwarded API_BASE project_suffix e
              (document (request e department (values st) (otp st))))
  = Http.Rejects thrown ->
  let st' := onSubmit e department NumberToString
               (served_by e API_BASE upstream project_suffix) st in
  toasts st' = toasts st ++ [destructive_toast (Route.error_message e)]
  /\ values st' = values st
  /\ otp st' = otp st
  /\ otpCode st' = otpCode st.
Proof.
  intros Hne H Hup st'. subst st'.
  assert (Hs : served_by e API_BASE upstream project_suffix
                 (request e department (values st) (otp st))
               = Http.Resolves
                   {| Http.status := 500;
                      Http.jsonBody :=
                        Some (JObj [(js "error",
                                     JStr (Route.error_message e))]) |}).
  { unfold served_by. rewrite POST_run. cbn [Route.json_].
    destruct (request_has_document e department (values st) (otp st)) as (Hb & _).
    rewrite Hb. cbn zeta. rewrite Hup. reflexivity. }
  rewrite onSubmit_failed; [| exact H | now rewrite Hs].
  rewrite Hs. cbn [toasts toast sent_request shown_message].
  unfold Http.json_or_empty. cbn [Http.jsonBody get assoc].
  assert (Hd : str_eqb (js "detail") (js "error") = false) by reflexivity.
  assert (He : str_eqb (js "error") (js "error") = true) by reflexivity.
  rewrite Hd, He. cbn [truthy]. rewrite error_message_truthy.
  repeat split.
Qed.

Lemma unreachable_upstream_shows_route_message_witness :
  journal <> project
  /\ ready journal filled_journal = true
  /\ toasts (onSubmit journal computer no_digits
               (served_by journal None upstream_down []) filled_journal)
     = [destructive_toast (js "Unable to submit journal article")]
  /\ values (onSubmit journal computer no_digits
               (served_by journal None upstream_down []) filled_journal)
     = values filled_journal.
Proof.
  assert (Hne : journal <> project) by discriminate.
  assert (H : ready journal filled_journal = true) by reflexivity.
  split; [exact Hne|]. split; [exact H|].
  destruct (@unreachable_upstream_shows_route_message journal computer no_digits
              None upstream_down [] filled_journal
              (Http.ErrorObject (js "connect ECONNREFUSED")) Hne H eq_refl)
    as (Ht & Hv & _).
  split; assumption.
Defined.



(** X21. The journal and research routes write to [console.error] exactly when
    they answer for themselves: when the request body does not parse, when the
    upstream call throws, and when the upstream answers with a status that a
    response with a body may not have (204, 205, 304, or outside 200 to 599), for
    which [NextResponse.json] throws inside the [try].  Any other upstream answer
    is relayed without a line, whatever its status. *)
Theorem route_logs_exactly_its_own_failures (e : entity)
    (API_BASE : option jstring) (fetch : Http.request -> Http.outcome)
    (project_suffix : jstring) (request : Route.NextRequest) :
  e <> project ->
  logged (Route.POST API_BASE fetch project_suffix e request)
  = match Route.json_ request with
    | None => true
    | Some payload =>
        match fetch (forwarded API_BASE project_suffix e payload) with
        | Http.Resolves answer => negb (Route.accepts_body (Http.status answer))
        | Http.Rejects _ => true
        end
    end.
Proof.
  intros Hne. rewrite POST_run.
  destruct e; [now elim Hne | |];
    (destruct (Route.json_ request) as [payload|]; [|reflexivity]);
    cbn zeta;
    match goal with
    | |- context [fetch ?q] => destruct (fetch q) as [answer | thrown]
    end; try reflexivity;
    destruct (Route.accepts_body (Http.status answer)); reflexivity.
Qed.

Lemma route_logs_exactly_its_own_failures_witness :
  journal <> project
  /\ logged (Route.POST None upstream_refuses [] journal
               {| Route.json_ := Some (JObj []) |}) = false
  /\ logged (Route.POST None upstream_no_content [] journal
               {| Route.json_ := Some (JObj []) |}) = true
  /\ logged (Route.POST None upstream_down [] journal
               {| Route.json_ := Some (JObj []) |}) = true.
Proof.
  assert (Hne : journal <> project) by discriminate.
  split; [exact Hne|].
  rewrite !(@route_logs_exactly_its_own_failures journal None _
              [] {| Route.json_ := Some (JObj []) |} Hne).
  repeat split.
Defined.

(* ================================================================== *)
(** ** The texts of the section *)

Lemma or_string_nonempty (a : option jstring) (b : jstring) :
  b <> [] -> or_string a b <> [].
Proof.
  intros Hb. unfold or_string.
  destruct a as [x|]; [|exact Hb].
  destruct (truthy_str x) eqn:E; [|exact Hb].
  now apply truthy_str_nonempty.
Qed.

(** X22. When [DepartmentSubmissionSection] renders, the help address it shows
    is the department's email when that is a non-empty string, and
    "info@tcioe.edu.np" when it is missing or empty, so never empty; the heading
    is "Submit work to " followed by the short name when that is a non-empty
    string, by the name otherwise. *)
Theorem section_names_department_and_help_address
    (department : DepartmentDetail) (view : section_view) :
  DepartmentSubmissionSection (Some department) = Some view ->
  helpEmail view
  = match email department with
    | Some (c :: address) => c :: address
    | _ => js "info@tcioe.edu.np"
    end
  /\ helpEmail view <> []
  /\ heading view
     = js "Submit work to "
       ++ match shortName department with
          | Some (c :: short) => c :: short
          | _ => name department
          end.
Proof.
  unfold DepartmentSubmissionSection.
  destruct (negb (present (uuid department))); [discriminate|].
  intros H. injection H as <-. cbn [helpEmail heading].
  split; [|split].
  - destruct (email department) as [[|c address]|]; reflexivity.
  - apply or_string_nonempty. discriminate.
  - destruct (shortName department) as [[|c short]|]; reflexivity.
Qed.

Lemma section_names_department_and_help_address_witness :
  exists view,
    DepartmentSubmissionSection (Some electronics) = Some view
    /\ helpEmail view = js "ece@tcioe.edu.np"
    /\ heading view = js "Submit work to DoECE".
Proof.
  eexists. split; [reflexivity|].
  destruct (@section_names_department_and_help_address electronics _ eq_refl)
    as (He & _ & Hh).
  split; [exact He | exact Hh].
Defined.
